(** * The MT4 bridge of [app.py]: history ring, command queue, ingestion handler

    A shallow embedding of the Flask application in [src/app.py].  The three
    globals ([history], [commands], [cmd_counter]) become one record that
    every handler receives and returns; a handler that lets an exception
    escape returns it instead of a response.  Handlers are first run one
    call after the other; then each is cut into the steps that the locks
    make atomic, and the threads of the server interleave these steps.

    Python text is a list of code points, a float a binary64 number, and the
    functions of the standard library the handlers call are written out
    after CPython 3.11: [str.strip], [float], [repr] of a float, and the C
    scanner behind [json.JSONDecoder.raw_decode].  Those whose full
    behaviour depends on the Unicode tables or on the interpreter's state
    are members of the class [Builtins]: the general theorems hold for every
    instance, the worked inputs run on the instance [cpython]. *)

From Stdlib Require Import List String Ascii ZArith NArith Lia Bool Arith.
From Stdlib Require Import Sorted Permutation.
From Stdlib Require Floats.SpecFloat.
Import ListNotations.

Set Implicit Arguments.
Set Warnings "-register-all".

(** ** Python text

    A Python [str] is a sequence of code points. *)

Definition pystr := list N.

(** The text of an ASCII literal of the source. *)
Definition lit (s : string) : pystr :=
  map N_of_ascii (list_ascii_of_string s).

(** The same, with every apostrophe read as a double quote: JSON bodies are
    written ['like this'] in examples. *)
Definition dq (s : string) : pystr :=
  map (fun c => if N.eqb c 39 then 34%N else c) (lit s).

Definition pystr_eqb (a b : pystr) : bool :=
  if list_eq_dec N.eq_dec a b then true else false.

(** [str.isspace] on one code point: the table of [_PyUnicode_IsWhitespace]. *)
Definition isspace (c : N) : bool :=
  ((9 <=? c) && (c <=? 13) || (28 <=? c) && (c <=? 32)
   || (c =? 133) || (c =? 160) || (c =? 5760)
   || (8192 <=? c) && (c <=? 8202)
   || (c =? 8232) || (c =? 8233) || (c =? 8239) || (c =? 8287)
   || (c =? 12288))%N.

Fixpoint lstrip (s : pystr) : pystr :=
  match s with
  | c :: s' => if isspace c then lstrip s' else s
  | [] => []
  end.

(** [s.strip()] *)
Definition strip (s : pystr) : pystr := rev (lstrip (rev (lstrip s))).

(** The longest prefix of [s] whose characters satisfy [p], and the rest. *)
Fixpoint span (p : N -> bool) (s : pystr) : pystr * pystr :=
  match s with
  | c :: s' =>
      if p c then let '(a, b) := span p s' in (c :: a, b) else ([], s)
  | [] => ([], [])
  end.

Definition is_digit (c : N) : bool := ((48 <=? c) && (c <=? 57))%N.

(** An ASCII capital as its small letter, for names compared without case. *)
Definition lower (c : N) : N :=
  if ((65 <=? c) && (c <=? 90))%N then (c + 32)%N else c.

(** [sep.join(lines)] *)
Fixpoint join (sep : pystr) (lines : list pystr) : pystr :=
  match lines with
  | [] => []
  | [l] => l
  | l :: ls => l ++ sep ++ join sep ls
  end.

(** ['%d' % n] for a natural number or an integer. *)
Fixpoint digits_of_uint (d : Decimal.uint) : pystr :=
  match d with
  | Decimal.Nil => []
  | Decimal.D0 d => 48%N :: digits_of_uint d
  | Decimal.D1 d => 49%N :: digits_of_uint d
  | Decimal.D2 d => 50%N :: digits_of_uint d
  | Decimal.D3 d => 51%N :: digits_of_uint d
  | Decimal.D4 d => 52%N :: digits_of_uint d
  | Decimal.D5 d => 53%N :: digits_of_uint d
  | Decimal.D6 d => 54%N :: digits_of_uint d
  | Decimal.D7 d => 55%N :: digits_of_uint d
  | Decimal.D8 d => 56%N :: digits_of_uint d
  | Decimal.D9 d => 57%N :: digits_of_uint d
  end.

Definition str_of_N (n : N) : pystr := digits_of_uint (N.to_uint n).

Definition str_of_Z (z : Z) : pystr :=
  match z with
  | Zneg p => 45%N :: str_of_N (Npos p)
  | _ => str_of_N (Z.to_N z)
  end.

(** ** Python floats

    A [float] is an IEEE 754 binary64 number: [spec_float] at precision 53,
    with the library's rounding to nearest, ties to even. *)

Module PyFloat.
Import Floats.SpecFloat.

Definition pyfloat := spec_float.
Definition prec : Z := 53.
Definition emax : Z := 1024.

Definition ndigits (m : N) : Z := Z.of_nat (List.length (str_of_N m)).

(** The double nearest to [(-1)^neg * m * 10^e]: what [float] returns for a
    decimal literal with digits [m] and decimal exponent [e].  Beyond
    [10^310] it is an infinity and below [10^-330] a zero, whatever the
    digits. *)
Definition of_decimal (neg : bool) (m : N) (e : Z) : pyfloat :=
  match m with
  | N0 => S754_zero neg
  | Npos p =>
      if (310 <? ndigits m + e)%Z then S754_infinity neg
      else if (ndigits m + e <? -330)%Z then S754_zero neg
      else if (0 <=? e)%Z then
        binary_round prec emax neg (p * Z.to_pos (10 ^ e)) 0
      else
        let '(q, e', l) :=
          SFdiv_core_binary prec emax (Zpos p) 0 (10 ^ (- e)) 0 in
        binary_round_aux prec emax neg q e' l
  end.

(** *** Reading a float from text ([float(s)])

    The grammar of [PyFloat_FromString] on ASCII text: surrounding ASCII
    white space is dropped, an underscore may stand between two digits,
    then a sign and either [inf], [infinity] or [nan] in any letter case or
    a decimal numeral with an optional exponent.  [None] stands for
    [ValueError].  Text outside ASCII, where CPython first maps Unicode
    digits and spaces to ASCII, is refused here. *)

Definition is_c_space (c : N) : bool :=
  ((9 <=? c) && (c <=? 13) || (c =? 32))%N.

Definition N_of_digits (ds : pystr) : N :=
  fold_left (fun acc c => (10 * acc + (c - 48))%N) ds 0%N.

(** [_Py_string_to_number_with_underscores]: [prev] is the character
    before; the result is the text without its underscores. *)
Fixpoint drop_underscores (prev : N) (s : pystr) : option pystr :=
  match s with
  | [] => if (prev =? 95)%N then None else Some []
  | c :: s' =>
      if (c =? 95)%N then
        if is_digit prev then drop_underscores c s' else None
      else if (prev =? 95)%N && negb (is_digit c) then None
      else option_map (cons c) (drop_underscores c s')
  end.

(** The exponent part: [e], a sign, digits.  Without a digit after it the
    [e] is not part of the numeral. *)
Definition exponent (s : pystr) : Z * pystr :=
  match s with
  | c :: s1 =>
      if ((c =? 101) || (c =? 69))%N then
        let '(neg, s2) :=
          match s1 with
          | x :: r =>
              if (x =? 45)%N then (true, r)
              else if (x =? 43)%N then (false, r) else (false, s1)
          | [] => (false, s1)
          end in
        match span is_digit s2 with
        | ([], _) => (0%Z, s)
        | (ds, rest) =>
            let v := Z.of_N (N_of_digits ds) in
            (if neg then (- v)%Z else v, rest)
        end
      else (0%Z, s)
  | [] => (0%Z, s)
  end.

Definition of_str (s : pystr) : option pyfloat :=
  if existsb (fun c => (127 <? c)%N) s then None else
  let s := rev (snd (span is_c_space (rev (snd (span is_c_space s))))) in
  match drop_underscores 0 s with
  | None => None
  | Some t =>
      let '(neg, body) :=
        match t with
        | x :: r =>
            if (x =? 45)%N then (true, r)
            else if (x =? 43)%N then (false, r) else (false, t)
        | [] => (false, t)
        end in
      let word := map lower body in
      if pystr_eqb word (lit "inf") || pystr_eqb word (lit "infinity")
      then Some (S754_infinity neg)
      else if pystr_eqb word (lit "nan") then Some S754_nan
      else
        let '(ip, r1) := span is_digit body in
        let '(fp, r2) :=
          match r1 with
          | x :: r => if (x =? 46)%N then span is_digit r else ([], r1)
          | [] => ([], r1)
          end in
        match ip ++ fp with
        | [] => None
        | ds =>
            match exponent r2 with
            | (x, []) =>
                Some (of_decimal neg (N_of_digits ds)
                        (x - Z.of_nat (List.length fp)))
            | _ => None
            end
        end
  end.

(** [x == 0.0] *)
Definition is_zero (x : pyfloat) : bool :=
  match x with S754_zero _ => true | _ => false end.

Definition eqb (x y : pyfloat) : bool :=
  match x, y with
  | S754_zero a, S754_zero b => Bool.eqb a b
  | S754_infinity a, S754_infinity b => Bool.eqb a b
  | S754_nan, S754_nan => true
  | S754_finite a m e, S754_finite b n f =>
      Bool.eqb a b && Pos.eqb m n && Z.eqb e f
  | _, _ => false
  end.

(** *** The shortest text that reads back as the same float ([repr]) *)

(** [num / den] with [den > 0] lies in [[10^k, 10^(k+1))]: [k] is found
    from the binary logarithms and corrected by at most a few steps. *)
Definition below_pow10 (num den k : Z) : bool :=
  if (0 <=? k)%Z then (num <? den * 10 ^ k)%Z
  else (num * 10 ^ (- k) <? den)%Z.

Fixpoint fix_log10 (fuel : nat) (num den k : Z) : Z :=
  match fuel with
  | O => k
  | S fuel' =>
      if below_pow10 num den k then fix_log10 fuel' num den (k - 1)
      else if below_pow10 num den (k + 1) then k
      else fix_log10 fuel' num den (k + 1)
  end.

Definition floor_log10 (num den : Z) : Z :=
  fix_log10 8 num den (((Z.log2 num - Z.log2 den) * 30103) / 100000).

(** The exact value [m * 2^e] as a fraction. *)
Definition fraction (m : positive) (e : Z) : Z * Z :=
  if (0 <=? e)%Z then (Zpos m * 2 ^ e, 1)%Z else (Zpos m, 2 ^ (- e))%Z.

(** [floor (num / den / 10^q)] and whether twice the remainder is below,
    at or above one unit of that decimal place. *)
Definition decimal_floor (num den q : Z) : Z * comparison :=
  let n := if (0 <=? q)%Z then num else (num * 10 ^ (- q))%Z in
  let d := if (0 <=? q)%Z then (den * 10 ^ q)%Z else den in
  (n / d, (2 * (n mod d) ?= d))%Z.

(** The [n]-digit decimal that reads back as [m * 2^e], if there is one:
    the nearer of the two neighbours when both do, the even one on a tie. *)
Definition candidate (m : positive) (e : Z) (n : Z) : option (Z * Z) :=
  let '(num, den) := fraction m e in
  let q := (floor_log10 num den - n + 1)%Z in
  let '(d, half) := decimal_floor num den q in
  let x := S754_finite false m e in
  let lo := eqb (of_decimal false (Z.to_N d) q) x in
  let hi := eqb (of_decimal false (Z.to_N (d + 1)) q) x in
  let up := match half with
            | Lt => false | Gt => true | Eq => Z.odd d end in
  match lo, hi with
  | true, true => Some (if up then (d + 1)%Z else d, q)
  | true, false => Some (d, q)
  | false, true => Some ((d + 1)%Z, q)
  | false, false => None
  end.

Fixpoint shortest (fuel : nat) (m : positive) (e : Z) (n : Z) : Z * Z :=
  match fuel with
  | O => (0, 0)%Z
  | S fuel' =>
      match candidate m e n with
      | Some r => r
      | None => shortest fuel' m e (n + 1)
      end
  end.

Fixpoint strip_zeros (fuel : nat) (d q : Z) : Z * Z :=
  match fuel with
  | O => (d, q)
  | S fuel' =>
      if ((d mod 10 =? 0) && negb (d =? 0))%Z
      then strip_zeros fuel' (d / 10)%Z (q + 1)%Z
      else (d, q)
  end.

(** The digits and the position of the decimal point ([decpt]) that
    [_Py_dg_dtoa] returns in mode 0: the value is [0.digits * 10^decpt]. *)
Definition dtoa (m : positive) (e : Z) : pystr * Z :=
  let '(d, q) := shortest 17 m e 1 in
  let '(d', q') := strip_zeros 18 d q in
  let ds := str_of_N (Z.to_N d') in
  (ds, (Z.of_nat (List.length ds) + q')%Z).

Definition zeros (n : Z) : pystr := repeat 48%N (Z.to_nat n).

(** ['%+.02d' % exp] *)
Definition exp_text (x : Z) : pystr :=
  let a := str_of_N (Z.to_N (Z.abs x)) in
  (if (x <? 0)%Z then 45%N else 43%N)
    :: (if (Z.abs x <? 10)%Z then 48%N :: a else a).

(** [format_float_short] of [pystrtod.c] for the format ['r'] with
    [Py_DTSF_ADD_DOT_0]: exponent notation from [1e16] on and below
    [1e-4]. *)
Definition format_short (ds : pystr) (decpt : Z) : pystr :=
  let n := Z.of_nat (List.length ds) in
  if ((decpt <=? -4) || (16 <? decpt))%Z then
    match ds with
    | [] => []
    | [c] => c :: 101%N :: exp_text (decpt - 1)
    | c :: rest => c :: 46%N :: rest ++ 101%N :: exp_text (decpt - 1)
    end
  else if (decpt <=? 0)%Z then
    48%N :: 46%N :: zeros (- decpt) ++ ds
  else if (n <=? decpt)%Z then
    ds ++ zeros (decpt - n) ++ [46%N; 48%N]
  else
    firstn (Z.to_nat decpt) ds ++ 46%N :: skipn (Z.to_nat decpt) ds.

(** [repr(x)], which is also [str(x)] and the text of [x] in an f-string. *)
Definition repr (x : pyfloat) : pystr :=
  match x with
  | S754_nan => lit "nan"
  | S754_infinity false => lit "inf"
  | S754_infinity true => lit "-inf"
  | S754_zero false => lit "0.0"
  | S754_zero true => lit "-0.0"
  | S754_finite s m e =>
      let '(ds, decpt) := dtoa m e in
      (if s then [45%N] else []) ++ format_short ds decpt
  end.
End PyFloat.

Definition pyfloat := PyFloat.pyfloat.

(** ** Python values and exceptions *)

(** What [raw_decode] can return: [None], [bool], [int], [float], [str],
    [list] and [dict] (keys in insertion order, each once). *)
Inductive value :=
| VNone
| VBool (b : bool)
| VInt (z : Z)
| VFloat (x : pyfloat)
| VStr (s : pystr)
| VList (l : list value)
| VDict (d : list (pystr * value)).

Inductive exn :=
| JSONDecodeError (msg doc : pystr) (pos : nat)
| RecursionError (msg : pystr)
| ValueError (msg : pystr)
| RuntimeError (msg : pystr)
| AttributeError (msg : pystr).

(** [doc.count('\n', 0, pos)] and [doc.rfind('\n', 0, pos)] *)
Definition count_newlines (doc : pystr) (pos : nat) : nat :=
  List.length (filter (N.eqb 10) (firstn pos doc)).

Fixpoint rfind_newline (doc : pystr) (i : nat) (last : Z) : Z :=
  match doc with
  | [] => last
  | c :: doc' =>
      rfind_newline doc' (S i) (if N.eqb c 10 then Z.of_nat i else last)
  end.

(** [str(e)].  For [JSONDecodeError], [__init__] builds
    ['%s: line %d column %d (char %d)']. *)
Definition str_of_exn (e : exn) : pystr :=
  match e with
  | JSONDecodeError msg doc pos =>
      let lineno := S (count_newlines doc pos) in
      let colno := (Z.of_nat pos - rfind_newline (firstn pos doc) 0 (-1))%Z in
      msg ++ lit ": line " ++ str_of_N (N.of_nat lineno)
          ++ lit " column " ++ str_of_Z colno
          ++ lit " (char " ++ str_of_N (N.of_nat pos) ++ lit ")"
  | RecursionError msg | ValueError msg | RuntimeError msg
  | AttributeError msg => msg
  end.

(** [type(v).__name__] *)
Definition type_name (v : value) : pystr :=
  match v with
  | VNone => lit "NoneType"
  | VBool _ => lit "bool"
  | VInt _ => lit "int"
  | VFloat _ => lit "float"
  | VStr _ => lit "str"
  | VList _ => lit "list"
  | VDict _ => lit "dict"
  end.

(** [bool(v)], the test of [if v] *)
Definition truthy (v : value) : bool :=
  match v with
  | VNone => false
  | VBool b => b
  | VInt z => negb (Z.eqb z 0)
  | VFloat x => negb (PyFloat.is_zero x)
  | VStr s => match s with [] => false | _ => true end
  | VList l => match l with [] => false | _ => true end
  | VDict d => match d with [] => false | _ => true end
  end.

(** [d.get(key)] on the pairs of a [dict]: [None] when the key is absent. *)
Fixpoint dict_get (d : list (pystr * value)) (key : pystr) : value :=
  match d with
  | [] => VNone
  | (k, v) :: d' => if pystr_eqb k key then v else dict_get d' key
  end.

(** [d[key] = v]: an existing key keeps its place. *)
Fixpoint dict_set (V : Type) (d : list (pystr * V)) (key : pystr) (v : V)
  : list (pystr * V) :=
  match d with
  | [] => [(key, v)]
  | (k, w) :: d' =>
      if pystr_eqb k key then (k, v) :: d' else (k, w) :: dict_set d' key v
  end.

(** [v.get(key)]: only a [dict] has the method. *)
Definition py_get (v : value) (key : pystr) : exn + value :=
  match v with
  | VDict d => inr (dict_get d key)
  | _ => inl (AttributeError
                (lit "'" ++ type_name v
                   ++ lit "' object has no attribute 'get'"))
  end.

(** ** The JSON decoder

    [json.JSONDecoder().raw_decode] as the C scanner of CPython runs it
    ([_json.c]: [scan_once_unicode], [scanstring_unicode],
    [_parse_object_unicode], [_parse_array_unicode],
    [_match_number_unicode]) with the decoder's defaults: strict strings,
    [float], [int], and [nan] and the infinities for the three constants.
    The scanner works on the rest of the document; an index of the source is
    the length of the document less the length of that rest. *)

Module PyJson.

Inductive scanned (A : Type) :=
| Got (a : A) (rest : pystr)          (* a value, and where it ends *)
| StopIteration (rest : pystr)        (* [raise_stop_iteration(idx)] *)
| ErrMsg (msg : pystr) (rest : pystr) (* [raise_errmsg(msg, s, idx)] *)
| Raised (e : exn)                    (* any other exception *)
| Stuck.                              (* a loop count ran out *)
Arguments StopIteration {A}.
Arguments ErrMsg {A}.
Arguments Raised {A}.
Arguments Stuck {A}.

Definition is_whitespace (c : N) : bool :=
  ((c =? 32) || (c =? 9) || (c =? 10) || (c =? 13))%N.

Definition skip_whitespace (s : pystr) : pystr :=
  snd (span is_whitespace s).

Fixpoint starts_with (p s : pystr) : bool :=
  match p, s with
  | [], _ => true
  | a :: p', b :: s' => N.eqb a b && starts_with p' s'
  | _ :: _, [] => false
  end.

Definition hex_digit (c : N) : option N :=
  if ((48 <=? c) && (c <=? 57))%N then Some (c - 48)%N
  else if ((97 <=? c) && (c <=? 102))%N then Some (c - 87)%N
  else if ((65 <=? c) && (c <=? 70))%N then Some (c - 55)%N
  else None.

Definition hex4 (a b c d : N) : option N :=
  match hex_digit a, hex_digit b, hex_digit c, hex_digit d with
  | Some x, Some y, Some z, Some w =>
      Some (N.lor (N.shiftl (N.lor (N.shiftl (N.lor (N.shiftl x 4) y) 4) z) 4) w)
  | _, _, _, _ => None
  end.

Definition is_high_surrogate (c : N) : bool :=
  ((55296 <=? c) && (c <=? 56319))%N.
Definition is_low_surrogate (c : N) : bool :=
  ((56320 <=? c) && (c <=? 57343))%N.
Definition join_surrogates (hi lo : N) : N :=
  (65536 + N.lor (N.shiftl (N.land hi 1023) 10) (N.land lo 1023))%N.

(** The one-letter escapes after a backslash. *)
Definition escape (c : N) : option N :=
  if (c =? 34)%N then Some 34%N
  else if (c =? 92)%N then Some 92%N
  else if (c =? 47)%N then Some 47%N
  else if (c =? 98)%N then Some 8%N
  else if (c =? 102)%N then Some 12%N
  else if (c =? 110)%N then Some 10%N
  else if (c =? 114)%N then Some 13%N
  else if (c =? 116)%N then Some 9%N
  else None.

Definition unterminated : pystr := lit "Unterminated string starting at".
Definition bad_uXXXX : pystr := 
  lit "Invalid " ++ [92%N] ++ lit "uXXXX escape".

(** [scanstring_unicode] from the character after the opening quote.
    [begin] is the rest of the document at that quote and [acc] the
    characters decoded so far, last first. *)
Fixpoint scanstring_from (begin s acc : pystr) : scanned pystr :=
  match s with
  | [] => ErrMsg unterminated begin
  | c :: s1 =>
      if (c =? 34)%N then Got (rev acc) s1
      else if (c =? 92)%N then
        match s1 with
        | [] => ErrMsg unterminated begin
        | e :: s2 =>
            if (e =? 117)%N then
              match s2 with
              | h1 :: h2 :: h3 :: h4 :: s3 =>
                  match s3 with
                  | [] => ErrMsg bad_uXXXX s1
                  | b1 :: s4 =>
                      match hex4 h1 h2 h3 h4 with
                      | None => ErrMsg bad_uXXXX s1
                      | Some u =>
                          match s4 with
                          | b2 :: k1 :: k2 :: k3 :: k4 :: s5 =>
                              match s5 with
                              | [] => scanstring_from begin s3 (u :: acc)
                              | _ :: _ =>
                                  if is_high_surrogate u && (b1 =? 92)%N
                                       && (b2 =? 117)%N
                                  then
                                    match hex4 k1 k2 k3 k4 with
                                    | None => ErrMsg bad_uXXXX s4
                                    | Some u2 =>
                                        if is_low_surrogate u2
                                        then scanstring_from begin s5
                                               (join_surrogates u u2 :: acc)
                                        else scanstring_from begin s3
                                               (u :: acc)
                                    end
                                  else scanstring_from begin s3 (u :: acc)
                              end
                          | _ => scanstring_from begin s3 (u :: acc)
                          end
                      end
                  end
              | _ => ErrMsg bad_uXXXX s1
              end
            else
              match escape e with
              | Some ch => scanstring_from begin s2 (ch :: acc)
              | None => ErrMsg (lit "Invalid " ++ [92%N] ++ lit "escape") s
              end
        end
      else if (c <=? 31)%N then ErrMsg (lit "Invalid control character at") s
      else scanstring_from begin s1 (c :: acc)
  end.

(** [scanstring_unicode(pystr, idx + 1, strict, ...)] with [s] the rest of
    the document at the opening quote. *)
Definition scanstring (s : pystr) : scanned pystr :=
  scanstring_from s (tl s) [].

Definition max_str_digits : nat := 4300.

(** [PyLong_FromString] on decimal digits, with the limit on their
    number. *)
Definition int_of_digits (neg : bool) (ds : pystr) : exn + Z :=
  if Nat.ltb max_str_digits (List.length ds) then
    inl (ValueError
           (lit "Exceeds the limit (4300 digits) for integer string conversion: value has "
              ++ str_of_N (N.of_nat (List.length ds))
              ++ lit " digits; use sys.set_int_max_str_digits() to increase the limit"))
  else
    let n := Z.of_N (PyFloat.N_of_digits ds) in
    inr (if neg then (- n)%Z else n).

(** [_match_number_unicode]: an optional minus, [0] or a numeral without a
    leading zero, then a fraction if a digit follows the point and an
    exponent if a digit follows [e] and its sign. *)
Definition match_number (s : pystr) : scanned value :=
  let '(neg, s0) :=
    match s with
    | c :: r => if (c =? 45)%N then (true, r) else (false, s)
    | [] => (false, s)
    end in
  match s0 with
  | [] => StopIteration s
  | c :: r =>
      let int_part :=
        if ((49 <=? c) && (c <=? 57))%N then
          let '(ds, r1) := span is_digit r in
          Some (c :: ds, r1)
        else if (c =? 48)%N then Some ([c], r)
        else None in
      match int_part with
      | None => StopIteration s
      | Some (ip, r1) =>
          let '(has_frac, r2) :=
            match r1 with
            | p :: d :: r' =>
                if (p =? 46)%N && is_digit d
                then (true, snd (span is_digit r'))
                else (false, r1)
            | _ => (false, r1)
            end in
          let r3 := snd (PyFloat.exponent r2) in
          let has_exp := negb (Nat.eqb (List.length r3) (List.length r2)) in
          if has_frac || has_exp then
            let numstr := firstn (List.length s - List.length r3) s in
            match PyFloat.of_str numstr with
            | Some x => Got (VFloat x) r3
            | None =>
                Raised (ValueError (lit "could not convert string to float"))
            end
          else
            match int_of_digits neg ip with
            | inr z => Got (VInt z) r3
            | inl e => Raised e
            end
      end
  end.

Definition expecting_name : pystr :=
  lit "Expecting property name enclosed in double quotes".
Definition expecting_colon : pystr := lit "Expecting ':' delimiter".
Definition expecting_comma : pystr := lit "Expecting ',' delimiter".

Section Containers.
(** The scanner for the values inside, as the C code calls
    [scan_once_unicode] back. *)
Variable scan : pystr -> scanned value.

(** The [while (1)] of [_parse_object_unicode], one pair a turn; [n]
    bounds the turns. *)
Fixpoint object_pairs (n : nat) (s : pystr) (d : list (pystr * value))
  : scanned value :=
  match n with
  | O => Stuck
  | S n' =>
      match s with
      | [] => ErrMsg expecting_name s
      | c :: _ =>
          if negb (c =? 34)%N then ErrMsg expecting_name s else
          match scanstring s with
          | Got key s1 =>
              let s2 := skip_whitespace s1 in
              match s2 with
              | [] => ErrMsg expecting_colon s2
              | c2 :: s3 =>
                  if negb (c2 =? 58)%N then ErrMsg expecting_colon s2 else
                  match scan (skip_whitespace s3) with
                  | Got v s4 =>
                      let d' := dict_set d key v in
                      let s5 := skip_whitespace s4 in
                      match s5 with
                      | [] => ErrMsg expecting_comma s5
                      | c5 :: s6 =>
                          if (c5 =? 125)%N then Got (VDict d') s6
                          else if (c5 =? 44)%N
                          then object_pairs n' (skip_whitespace s6) d'
                          else ErrMsg expecting_comma s5
                      end
                  | StopIteration r => StopIteration r
                  | ErrMsg m r => ErrMsg m r
                  | Raised e => Raised e
                  | Stuck => Stuck
                  end
              end
          | StopIteration r => StopIteration r
          | ErrMsg m r => ErrMsg m r
          | Raised e => Raised e
          | Stuck => Stuck
          end
      end
  end.

(** [_parse_object_unicode] with [s] the rest after the brace. *)
Definition parse_object (s : pystr) : scanned value :=
  let s1 := skip_whitespace s in
  match s1 with
  | c :: s2 =>
      if (c =? 125)%N then Got (VDict []) s2
      else object_pairs (S (List.length s1)) s1 []
  | [] => object_pairs 1 s1 []
  end.

(** The [while (1)] of [_parse_array_unicode]; [acc] holds the items
    read, last first. *)
Fixpoint array_items (n : nat) (s : pystr) (acc : list value)
  : scanned value :=
  match n with
  | O => Stuck
  | S n' =>
      match scan s with
      | Got v s1 =>
          let s2 := skip_whitespace s1 in
          match s2 with
          | [] => ErrMsg expecting_comma s2
          | c :: s3 =>
              if (c =? 93)%N then Got (VList (rev (v :: acc))) s3
              else if (c =? 44)%N
              then array_items n' (skip_whitespace s3) (v :: acc)
              else ErrMsg expecting_comma s2
          end
      | StopIteration r => StopIteration r
      | ErrMsg m r => ErrMsg m r
      | Raised e => Raised e
      | Stuck => Stuck
      end
  end.

(** [_parse_array_unicode] with [s] the rest after the bracket. *)
Definition parse_array (s : pystr) : scanned value :=
  let s1 := skip_whitespace s in
  match s1 with
  | c :: s2 =>
      if (c =? 93)%N then Got (VList []) s2
      else array_items (S (List.length s1)) s1 []
  | [] => array_items 1 s1 []
  end.
End Containers.

Definition too_deep (what : string) : exn :=
  RecursionError
    (lit "maximum recursion depth exceeded while decoding a JSON "
       ++ lit what ++ lit " from a unicode string").

(** [scan_once_unicode].  [depth] is the number of nested calls
    [Py_EnterRecursiveCall] still allows. *)
Fixpoint scan_once (depth : nat) (s : pystr) : scanned value :=
  match s with
  | [] => StopIteration s
  | c :: s1 =>
      if (c =? 34)%N then
        match scanstring s with
        | Got t r => Got (VStr t) r
        | StopIteration r => StopIteration r
        | ErrMsg m r => ErrMsg m r
        | Raised e => Raised e
        | Stuck => Stuck
        end
      else if (c =? 123)%N then
        match depth with
        | O => Raised (too_deep "object")
        | S depth' => parse_object (scan_once depth') s1
        end
      else if (c =? 91)%N then
        match depth with
        | O => Raised (too_deep "array")
        | S depth' => parse_array (scan_once depth') s1
        end
      else if starts_with (lit "null") s then Got VNone (skipn 4 s)
      else if starts_with (lit "true") s then Got (VBool true) (skipn 4 s)
      else if starts_with (lit "false") s then Got (VBool false) (skipn 5 s)
      else if starts_with (lit "NaN") s
      then Got (VFloat SpecFloat.S754_nan) (skipn 3 s)
      else if starts_with (lit "Infinity") s
      then Got (VFloat (SpecFloat.S754_infinity false)) (skipn 8 s)
      else if starts_with (lit "-Infinity") s
      then Got (VFloat (SpecFloat.S754_infinity true)) (skipn 9 s)
      else match_number s
  end.

(** The calls the interpreter still allows when the handler runs: the
    default [sys.getrecursionlimit()].  The frames already on the stack
    make the real allowance somewhat smaller. *)
Definition recursion_limit : nat := 1000.

Inductive decoded :=
| Decoded (obj : value) (idx : nat)
| Raises (e : exn).

(** [JSONDecoder.raw_decode(s)]: a [StopIteration] of the scanner becomes
    [JSONDecodeError("Expecting value", s, err.value)].  The last case does
    not occur (lemma [scan_once_never_stuck]). *)
Definition raw_decode (s : pystr) : decoded :=
  let at_ (r : pystr) := (List.length s - List.length r)%nat in
  match scan_once recursion_limit s with
  | Got v r => Decoded v (at_ r)
  | StopIteration r => Raises (JSONDecodeError (lit "Expecting value") s (at_ r))
  | ErrMsg m r => Raises (JSONDecodeError m s (at_ r))
  | Raised e => Raises e
  | Stuck => Raises (RuntimeError (lit "loop count exhausted"))
  end.
End PyJson.

(** ** The built-ins the handlers call *)

Class Builtins := {
  (** [s.upper()] *)
  str_upper : pystr -> pystr;
  (** [float(s)]; [None] is [ValueError] *)
  float_of_str : pystr -> option pyfloat;
  (** the text of a float inside an f-string *)
  str_of_float : pyfloat -> pystr;
  (** [json.JSONDecoder().raw_decode(s)] *)
  raw_decode : pystr -> PyJson.decoded;
  (** [traceback.format_exc()] while the exception is handled *)
  format_exc : exn -> pystr
}.

(** CPython 3.11 on the inputs the worked examples use.  [str_upper] here
    maps the ASCII letters only and [float_of_str] reads ASCII text only; the
    traceback keeps its first line and the message, without the frames. *)
Definition ascii_upper (s : pystr) : pystr :=
  map (fun c => if ((97 <=? c) && (c <=? 122))%N then (c - 32)%N else c) s.

#[export] Instance cpython : Builtins := {|
  str_upper := ascii_upper;
  float_of_str := PyFloat.of_str;
  str_of_float := PyFloat.repr;
  raw_decode := PyJson.raw_decode;
  format_exc := fun e =>
    lit "Traceback (most recent call last):" ++ [10%N] ++ str_of_exn e
                                             ++ [10%N]
|}.

(** ** Global data structures ([app.py], lines 11 to 18) *)

(** One status report as [mt4_webhook] stores it. *)
Record record := {
  received_at : pystr;
  ip : option pystr;
  method : pystr;
  path : pystr;
  headers : list (pystr * pystr);
  body_raw : pystr;
  parsed : value;
  parse_error : option pystr;
  parse_error_detail : option pystr;
  remaining_data : option pystr;
  account : value;
  server : value;
  balance : value;
  equity : value;
  floating_pnl : value
}.

(** One pending instruction as [send_command] stores it. *)
Record command := {
  id : nat;
  symbol : pystr;
  direction : pystr;
  volume : pyfloat;
  sl : option pyfloat;
  tp : option pyfloat;
  timestamp : pystr
}.

Definition MAX_HISTORY : nat := 50.

(** The three globals: [history] (a [deque] with [maxlen=MAX_HISTORY], its
    left end first), [commands] and [cmd_counter]. *)
Record globals := {
  history : list record;
  commands : list command;
  cmd_counter : nat
}.

Definition startup : globals :=
  {| history := []; commands := []; cmd_counter := 0 |}.

(** [deque.appendleft(x)] with a [maxlen]: the item goes to the left end and,
    if the deque is then too long, one item is popped from the right end. *)
Definition appendleft (maxlen : nat) (x : record) (d : list record)
  : list record :=
  let d' := x :: d in
  if Nat.ltb maxlen (List.length d') then removelast d' else d'.

(** ** What a handler sees of the request, and what it answers *)

Record request := {
  (** [request.get_data(as_text=True)] *)
  data : pystr;
  req_headers : list (pystr * pystr);
  remote_addr : option pystr;
  req_method : pystr;
  req_path : pystr;
  (** [request.form] *)
  form : list (pystr * pystr);
  (** [datetime.now().strftime(fmt)] at the time of the call *)
  now : pystr -> pystr
}.

Inductive response :=
| Text (body : pystr) (status : nat) (content_type : pystr)
| Redirect (endpoint : pystr)
| NotFound.   (* no route matches the request: Flask's 404 page *)

(** A handler returns a response or lets an exception escape, which Flask
    answers with status 500. *)
Inductive outcome :=
| Returns (r : response)
| Escapes (e : exn).

(** What [index] hands to the template. *)
Record page := {
  page_history : list record;
  latest_raw : option record;
  page_commands : list command
}.

(** [request.form.get(key, '')] *)
Fixpoint form_get (f : list (pystr * pystr)) (key : pystr) : pystr :=
  match f with
  | [] => []
  | (k, v) :: f' => if pystr_eqb k key then v else form_get f' key
  end.

(** [request.headers.get(key)]: header names compare without case. *)
Fixpoint headers_get (h : list (pystr * pystr)) (key : pystr)
  : option pystr :=
  match h with
  | [] => None
  | (k, v) :: h' =>
      if pystr_eqb (map lower k) (map lower key)
      then Some v else headers_get h' key
  end.

(** ** Helpers ([app.py], lines 21 to 35) *)

Section Handlers.
Context {B : Builtins}.

Definition comma : pystr := lit ",".

(** [format_command(cmd)] *)
Definition format_command (cmd : command) : pystr :=
  let base := direction cmd ++ comma ++ symbol cmd ++ comma
                ++ str_of_float (volume cmd) in
  match sl cmd, tp cmd with
  | Some s, Some t =>
      base ++ comma ++ str_of_float s ++ comma ++ str_of_float t
  | Some s, None => base ++ comma ++ str_of_float s ++ lit ",0"
  | None, Some t => base ++ lit ",0," ++ str_of_float t
  | None, None => base
  end.

(** [get_client_ip()]: [a or b] is [b] when [a] is [None] or empty. *)
Definition get_client_ip (rq : request) : option pystr :=
  match headers_get (req_headers rq) (lit "X-Real-Ip") with
  | Some (c :: r) => Some (c :: r)
  | _ =>
      match headers_get (req_headers rq) (lit "X-Forwarded-For") with
      | Some v => Some v
      | None => remote_addr rq
      end
  end.

(** ** Routes *)

(** [index()], the route [GET /].  Of the values handed to the template
    the list announced as newest first, the record shown as the latest and
    the copy of the queue are kept; the detail extraction of line 101 and
    the HTML template are not modelled. *)
Definition hist_list (g : globals) : list record := rev (history g).

Definition latest_record (g : globals) : option record :=
  match hist_list g with
  | r :: _ => Some r
  | [] => None
  end.

Definition index (g : globals) : page :=
  {| page_history := hist_list g;
     latest_raw := latest_record g;
     page_commands := commands g |}.

(** The text before [str(e)] in the second [except]: the six code points
    of the source's literal. *)
Definition unknown_exception : pystr :=
  [26410; 30693; 24322; 24120; 58; 32]%N.

Definition text_plain : pystr := lit "text/plain; charset=utf-8".

(** [parsed_json.get(key) if parsed_json else None] *)
Definition headline (parsed_json : value) (key : string) : exn + value :=
  if truthy parsed_json then py_get parsed_json (lit key) else inr VNone.

(** [mt4_webhook()], the route [POST /web/api/echo], when no other
    handler runs between its lines; its steps are [mt4_webhook_store] and
    [mt4_webhook_drain] below.  The [print] calls write to the log only. *)
Definition mt4_webhook (g : globals) (rq : request) : outcome * globals :=
  let raw_body := data rq in
  let cleaned_body := strip raw_body in
  let client_ip := get_client_ip rq in
  let headers_dict :=
    fold_left (fun d kv => dict_set d (fst kv) (snd kv)) (req_headers rq) [] in
  let '(parsed_json, parse_error, parse_error_detail, remaining_data) :=
    match raw_decode cleaned_body with
    | PyJson.Decoded obj idx =>
        let remaining := strip (skipn idx cleaned_body) in
        (obj, None, None,
         match remaining with
         | [] => None
         | _ :: _ => Some (firstn 200 remaining)
         end)
    | PyJson.Raises (JSONDecodeError _ _ _ as e) =>
        (VNone, Some (str_of_exn e), Some (format_exc e), None)
    | PyJson.Raises e =>
        (VNone, Some (unknown_exception ++ str_of_exn e),
         Some (format_exc e), None)
    end in
  match headline parsed_json "account",
        headline parsed_json "server",
        headline parsed_json "balance",
        headline parsed_json "equity",
        headline parsed_json "floating_pnl" with
  | inr account, inr server, inr balance, inr equity, inr floating_pnl =>
      let record := {|
        received_at := now rq (lit "%Y-%m-%d %H:%M:%S");
        ip := client_ip;
        method := req_method rq;
        path := req_path rq;
        headers := headers_dict;
        body_raw := raw_body;
        parsed := parsed_json;
        parse_error := parse_error;
        parse_error_detail := parse_error_detail;
        remaining_data := remaining_data;
        account := account;
        server := server;
        balance := balance;
        equity := equity;
        floating_pnl := floating_pnl
      |} in
      let history' := appendleft MAX_HISTORY record (history g) in
      let response_lines := map format_command (commands g) in
      let g' := {| history := history';
                   commands := [];
                   cmd_counter := cmd_counter g |} in
      match response_lines with
      | _ :: _ => (Returns (Text (join [10%N] response_lines) 200 text_plain), g')
      | [] => (Returns (Text (lit "NOCOMMAND") 200 text_plain), g')
      end
  | inl e, _, _, _, _ | _, inl e, _, _, _ | _, _, inl e, _, _
  | _, _, _, inl e, _ | _, _, _, _, inl e => (Escapes e, g)
  end.

Definition to_index : outcome := Returns (Redirect (lit "index")).

(** [send_command()], the route [POST /send_command], when no other
    handler runs between its lines; its two steps are [send_command_build]
    and [send_command_append] below. *)
Definition send_command (g : globals) (rq : request) : outcome * globals :=
  let symbol := str_upper (strip (form_get (form rq) (lit "symbol"))) in
  let direction := str_upper (strip (form_get (form rq) (lit "direction"))) in
  let volume := strip (form_get (form rq) (lit "volume")) in
  let sl := strip (form_get (form rq) (lit "sl")) in
  let tp := strip (form_get (form rq) (lit "tp")) in
  if pystr_eqb symbol []
     || negb (existsb (pystr_eqb direction) [lit "BUY"; lit "SELL"])
     || pystr_eqb volume []
  then (to_index, g)
  else
    let opt (s : pystr) : option (option pyfloat) :=
      match s with
      | [] => Some None
      | _ :: _ => option_map Some (float_of_str s)
      end in
    match float_of_str volume, opt sl, opt tp with
    | Some volume, Some sl, Some tp =>
        let cmd := {|
          id := cmd_counter g;
          symbol := symbol;
          direction := direction;
          volume := volume;
          sl := sl;
          tp := tp;
          timestamp := now rq (lit "%H:%M:%S")
        |} in
        (to_index,
         {| history := history g;
            commands := commands g ++ [cmd];
            cmd_counter := S (cmd_counter g) |})
    | _, _, _ => (to_index, g)
    end.

(** [commands.pop(index)] for an index in range *)
Fixpoint pop (A : Type) (l : list A) (i : nat) : list A :=
  match l, i with
  | [], _ => []
  | _ :: l', O => l'
  | x :: l', S i' => x :: pop l' i'
  end.

(** [delete_command(index)], the function of lines 213 to 217 *)
Definition delete_command (g : globals) (index : Z) : outcome * globals :=
  if ((0 <=? index) && (index <? Z.of_nat (List.length (commands g))))%Z
  then (to_index,
        {| history := history g;
           commands := pop (commands g) (Z.to_nat index);
           cmd_counter := cmd_counter g |})
  else (to_index, g).

(** The route [POST /delete_command/<int:index>] of line 212.  The
    converter [int] takes digits only: a request for a negative position
    matches no route, so Flask answers 404 and [delete_command] is not
    called. *)
Definition delete_command_route (g : globals) (index : Z)
  : outcome * globals :=
  if (index <? 0)%Z then (Returns NotFound, g) else delete_command g index.

(** [clear_commands()], the route [POST /clear_commands] *)
Definition clear_commands (g : globals) : outcome * globals :=
  (to_index,
   {| history := history g; commands := []; cmd_counter := cmd_counter g |}).
End Handlers.

(** ** The detail view ([app.py], lines 37 to 93, and line 101 of [index])

    [extract_latest_details] reads the record [index] shows as the latest.
    It also writes: every position of the report gets the key
    [open_time_str], in the [dict] that the stored record holds, so the
    function returns the record as it is afterwards beside its result. *)

(** What can escape from the view: the exceptions above, or [TypeError]. *)
Inductive raised :=
| Exn (e : exn)
| TypeError (msg : pystr).

(** The values for which [isinstance(v, (int, float))] holds; a [bool] is
    an [int]. *)
Inductive number :=
| NBool (b : bool)
| NInt (z : Z)
| NFloat (x : pyfloat).

Definition as_number (v : value) : option number :=
  match v with
  | VBool b => Some (NBool b)
  | VInt z => Some (NInt z)
  | VFloat x => Some (NFloat x)
  | _ => None
  end.

(** [d.get(key, default)] needs to know whether the key is there. *)
Fixpoint dict_find (d : list (pystr * value)) (key : pystr) : option value :=
  match d with
  | [] => None
  | (k, v) :: d' => if pystr_eqb k key then Some v else dict_find d' key
  end.

(** [p in s] for two strings *)
Fixpoint is_infix (p s : pystr) : bool :=
  PyJson.starts_with p s
  || match s with
     | [] => false
     | _ :: s' => is_infix p s'
     end.

(** The template's view of the latest record: the keys and their values. *)
Definition details := list (pystr * value).

(** A dictionary value that is a string or [None]. *)
Definition str_or_none (o : option pystr) : value :=
  match o with
  | Some s => VStr s
  | None => VNone
  end.

(** The record with another [parsed] value. *)
Definition with_parsed (r : record) (p : value) : record := {|
  received_at := received_at r;
  ip := ip r;
  method := method r;
  path := path r;
  headers := headers r;
  body_raw := body_raw r;
  parsed := p;
  parse_error := parse_error r;
  parse_error_detail := parse_error_detail r;
  remaining_data := remaining_data r;
  account := account r;
  server := server r;
  balance := balance r;
  equity := equity r;
  floating_pnl := floating_pnl r
|}.

(** The two texts of the key [error]: the literals of lines 54 and 61. *)
Definition parse_failed : pystr :=
  lit "JSON " ++ [35299; 26512; 22833; 36133; 58; 32]%N.

Definition parse_failed_no_detail : pystr :=
  lit "JSON " ++ [35299; 26512; 22833; 36133; 65292; 20294; 26080; 20855;
                  20307; 38169; 35823; 20449; 24687]%N.

Section Details.
Context {B : Builtins}.

(** [datetime.fromtimestamp(x).strftime('%Y-%m-%d %H:%M:%S')] in the time
    zone of the server; [None] when it raises. *)
Variable fromtimestamp : number -> option pystr.

(** [str(x)] for a number.  An [int] of a stored record has at most 4300
    digits, so its text exists. *)
Definition str_of_number (n : number) : pystr :=
  match n with
  | NBool true => lit "True"
  | NBool false => lit "False"
  | NInt z => str_of_Z z
  | NFloat x => str_of_float x
  end.

(** The text lines 66 to 72 give a position whose [open_time] is [v], or
    [None] when the key is missing: the date, the number itself when the
    date cannot be made, [N/A] for anything that is not a number. *)
Definition open_time_str (v : value) : pystr :=
  match as_number v with
  | Some n =>
      match fromtimestamp n with
      | Some t => t
      | None => str_of_number n
      end
  | None => lit "N/A"
  end.

(** One turn of the loop of line 65.  Only a [dict] passes: the test
    ['open_time' in pos], the subscript and the assignment raise
    [TypeError] on every other value. *)
Definition mark_position (pos : value) : raised + value :=
  match pos with
  | VDict d =>
      inr (VDict (dict_set d (lit "open_time_str")
                    (VStr (open_time_str (dict_get d (lit "open_time"))))))
  | VList l =>
      inl (TypeError (lit "list indices must be integers or slices, not str"))
  | VStr s =>
      if is_infix (lit "open_time") s
      then inl (TypeError (lit "string indices must be integers, not 'str'"))
      else inl (TypeError (lit "'str' object does not support item assignment"))
  | _ =>
      inl (TypeError (lit "argument of type '" ++ type_name pos
                        ++ lit "' is not iterable"))
  end.

(** The loop over the items: the items as they are when the loop ends, and
    the exception that ended it, if one did. *)
Fixpoint mark_all (items : list value) : list value * option raised :=
  match items with
  | [] => ([], None)
  | pos :: rest =>
      match mark_position pos with
      | inr pos' => let '(rest', e) := mark_all rest in (pos' :: rest', e)
      | inl e => (pos :: rest, Some e)
      end
  end.

(** [for pos in positions]: a list gives its items, a [dict] its keys, a
    string its characters; nothing else can be iterated. *)
Definition mark_positions (positions : value) : value * option raised :=
  match positions with
  | VList l => let '(l', e) := mark_all l in (VList l', e)
  | VDict d => (positions, snd (mark_all (map (fun kv => VStr (fst kv)) d)))
  | VStr s => (positions, snd (mark_all (map (fun c => VStr [c]) s)))
  | _ =>
      (positions,
       Some (TypeError (lit "'" ++ type_name positions
                          ++ lit "' object is not iterable")))
  end.

(** [base_info] of lines 45 to 49 *)
Definition base_info (r : record) : details :=
  [(lit "received_at", VStr (received_at r));
   (lit "ip", str_or_none (ip r));
   (lit "body_raw_preview",
    VStr (firstn 500 (body_raw r)
            ++ (if Nat.ltb 500 (List.length (body_raw r))
                then lit "..." else [])))].

Definition no_get (v : value) : raised :=
  Exn (AttributeError (lit "'" ++ type_name v
                         ++ lit "' object has no attribute 'get'")).

(** [extract_latest_details(record)]: the result, and the record after the
    call. *)
Definition extract_latest_details (the_record : option record)
  : (raised + option details) * option record :=
  match the_record with
  | None => (inr None, None)
  | Some r =>
      match parse_error r with
      | Some (c :: e) =>
          (inr (Some (base_info r
                        ++ [(lit "error", VStr (parse_failed ++ c :: e));
                            (lit "full_error",
                             str_or_none (parse_error_detail r));
                            (lit "remaining_data",
                             str_or_none (remaining_data r))])),
           Some r)
      | _ =>
          match parsed r with
          | VNone =>
              (inr (Some (base_info r
                            ++ [(lit "error", VStr parse_failed_no_detail)])),
               Some r)
          | VDict d =>
              let metrics :=
                match dict_find d (lit "metrics") with
                | Some m => m
                | None => VDict []
                end in
              let positions :=
                match dict_find d (lit "positions") with
                | Some p => p
                | None => VList []
                end in
              let '(positions', stopped) := mark_positions positions in
              let r' :=
                match dict_find d (lit "positions") with
                | Some _ =>
                    with_parsed r (VDict (dict_set d (lit "positions")
                                            positions'))
                | None => r
                end in
              match stopped with
              | Some e => (inl e, Some r')
              | None =>
                  match metrics with
                  | VDict m =>
                      let field (key : string) :=
                        (lit key, dict_get d (lit key)) in
                      let metric (key : string) :=
                        (lit key, dict_get m (lit key)) in
                      (inr (Some (base_info r
                                    ++ map field
                                         ["account"; "server"; "ts";
                                          "balance"; "equity"; "margin";
                                          "free_margin"; "margin_level";
                                          "floating_pnl";
                                          "day_start_equity"; "daily_pnl";
                                          "daily_return"]%string
                                    ++ map metric
                                         ["poll_latency_ms";
                                          "last_http_code";
                                          "last_error"]%string
                                    ++ [(lit "positions", positions');
                                        (lit "remaining_data",
                                         str_or_none (remaining_data r))])),
                       Some r')
                  | _ => (inl (no_get metrics), Some r')
                  end
              end
          | other => (inl (no_get other), Some r)
          end
      end
  end.

(** The history with its right end, the record [index] shows, replaced. *)
Definition replace_shown (h : list record) (r : record) : list record :=
  match h with
  | [] => []
  | _ :: _ => removelast h ++ [r]
  end.

(** What [index] hands to the template, the details included. *)
Record dashboard := {
  dash_history : list record;
  dash_latest : option details;
  dash_latest_raw : option record;
  dash_commands : list command
}.

(** Lines 98 to 103 of [index()], up to the call of
    [render_template_string] at line 104: the values the template is
    called with, or the exception of the detail extraction, and the
    globals afterwards.  The rendering itself is not modelled: it changes
    none of the globals, but it can still raise on the values it is given
    (the filter [format] of line 288 on a balance that is an [int] too
    large for a [float]), so [inr] says that line 104 is reached, not that
    the page is served. *)
Definition index_view (g : globals) : (raised + dashboard) * globals :=
  let '(latest_detail, shown) := extract_latest_details (latest_record g) in
  let history' :=
    match shown with
    | Some r => replace_shown (history g) r
    | None => history g
    end in
  let g' := {| history := history';
               commands := commands g;
               cmd_counter := cmd_counter g |} in
  match latest_detail with
  | inl e => (inl e, g')
  | inr d =>
      (inr {| dash_history := rev history';
              dash_latest := d;
              dash_latest_raw := shown;
              dash_commands := commands g |},
       g')
  end.
End Details.

(** ** Calls and runs

    A run is a sequence of calls that the server handles one after the
    other, each handler over before the next begins.  Handlers that
    overlap are the matter of the next part. *)

Inductive call :=
| Echo (rq : request)     (* POST /web/api/echo *)
| Send (rq : request)     (* POST /send_command *)
| Delete (index : Z)      (* POST /delete_command/<index> *)
| Clear.                  (* POST /clear_commands *)

Section Runs.
Context {B : Builtins}.

Definition handle (g : globals) (c : call) : outcome * globals :=
  match c with
  | Echo rq => mt4_webhook g rq
  | Send rq => send_command g rq
  | Delete index => delete_command_route g index
  | Clear => clear_commands g
  end.

Definition run (g : globals) (cs : list call) : globals :=
  fold_left (fun g c => snd (handle g c)) cs g.

(** The commands a call adds to the queue. *)
Definition enqueued_by (g : globals) (c : call) : list command :=
  match c with
  | Send rq =>
      skipn (List.length (commands g)) (commands (snd (send_command g rq)))
  | _ => []
  end.

(** The ids given out during a run, in the order of the calls. *)
Fixpoint assigned (g : globals) (cs : list call) : list nat :=
  match cs with
  | [] => []
  | c :: cs' =>
      map id (enqueued_by g c) ++ assigned (snd (handle g c)) cs'
  end.
End Runs.

(** ** Handlers that overlap

    Flask's server gives every request a thread of its own, so handlers
    overlap.  A handler touches the globals only inside its [with] blocks,
    which the two locks make atomic, and, in [send_command], at line 198,
    which reads [cmd_counter] before [commands_lock] is taken at line 206.
    Everywhere else it works on its own locals and on the request.  The
    blocks of [history_lock] touch the history only and those of
    [commands_lock] the queue and the counter only, so an execution of the
    server is an interleaving of steps, each step one such block or the
    read of line 198, and a handler is a sequence of at most two steps.
    The threads here are those of the four routes that write the queue or
    the history; [index] writes neither the queue nor the counter. *)

Section Threads.
Context {B : Builtins}.

(** Lines 115 to 160 of [mt4_webhook]: the record, made from the request
    alone, or the exception of lines 155 to 159. *)
Definition build_record (rq : request) : exn + record :=
  let raw_body := data rq in
  let cleaned_body := strip raw_body in
  let client_ip := get_client_ip rq in
  let headers_dict :=
    fold_left (fun d kv => dict_set d (fst kv) (snd kv)) (req_headers rq) [] in
  let '(parsed_json, parse_error, parse_error_detail, remaining_data) :=
    match raw_decode cleaned_body with
    | PyJson.Decoded obj idx =>
        let remaining := strip (skipn idx cleaned_body) in
        (obj, None, None,
         match remaining with
         | [] => None
         | _ :: _ => Some (firstn 200 remaining)
         end)
    | PyJson.Raises (JSONDecodeError _ _ _ as e) =>
        (VNone, Some (str_of_exn e), Some (format_exc e), None)
    | PyJson.Raises e =>
        (VNone, Some (unknown_exception ++ str_of_exn e),
         Some (format_exc e), None)
    end in
  match headline parsed_json "account",
        headline parsed_json "server",
        headline parsed_json "balance",
        headline parsed_json "equity",
        headline parsed_json "floating_pnl" with
  | inr account, inr server, inr balance, inr equity, inr floating_pnl =>
      inr {| received_at := now rq (lit "%Y-%m-%d %H:%M:%S");
             ip := client_ip;
             method := req_method rq;
             path := req_path rq;
             headers := headers_dict;
             body_raw := raw_body;
             parsed := parsed_json;
             parse_error := parse_error;
             parse_error_detail := parse_error_detail;
             remaining_data := remaining_data;
             account := account;
             server := server;
             balance := balance;
             equity := equity;
             floating_pnl := floating_pnl |}
  | inl e, _, _, _, _ | _, inl e, _, _, _ | _, _, inl e, _, _
  | _, _, _, inl e, _ | _, _, _, _, inl e => inl e
  end.

(** Lines 162 and 163: [history.appendleft(record)] under [history_lock] *)
Definition mt4_webhook_store (g : globals) (rec : record) : globals :=
  {| history := appendleft MAX_HISTORY rec (history g);
     commands := commands g;
     cmd_counter := cmd_counter g |}.

(** Lines 165 to 176: the block of [commands_lock] that renders and
    clears the queue, and the answer. *)
Definition mt4_webhook_drain (g : globals) : outcome * globals :=
  let response_lines := map format_command (commands g) in
  let g' := {| history := history g;
               commands := [];
               cmd_counter := cmd_counter g |} in
  match response_lines with
  | _ :: _ => (Returns (Text (join [10%N] response_lines) 200 text_plain), g')
  | [] => (Returns (Text (lit "NOCOMMAND") 200 text_plain), g')
  end.

(** Lines 180 to 205 of [send_command]: the checks, and the dictionary
    [cmd] with the value [counter] that line 198 reads from [cmd_counter];
    [None] when a check turns the request away. *)
Definition send_command_build (counter : nat) (rq : request)
  : option command :=
  let symbol := str_upper (strip (form_get (form rq) (lit "symbol"))) in
  let direction := str_upper (strip (form_get (form rq) (lit "direction"))) in
  let volume := strip (form_get (form rq) (lit "volume")) in
  let sl := strip (form_get (form rq) (lit "sl")) in
  let tp := strip (form_get (form rq) (lit "tp")) in
  if pystr_eqb symbol []
     || negb (existsb (pystr_eqb direction) [lit "BUY"; lit "SELL"])
     || pystr_eqb volume []
  then None
  else
    let opt (s : pystr) : option (option pyfloat) :=
      match s with
      | [] => Some None
      | _ :: _ => option_map Some (float_of_str s)
      end in
    match float_of_str volume, opt sl, opt tp with
    | Some volume, Some sl, Some tp =>
        Some {| id := counter;
                symbol := symbol;
                direction := direction;
                volume := volume;
                sl := sl;
                tp := tp;
                timestamp := now rq (lit "%H:%M:%S") |}
    | _, _, _ => None
    end.

(** Lines 206 to 208: [commands.append(cmd)] and [cmd_counter += 1] under
    [commands_lock] *)
Definition send_command_append (g : globals) (cmd : command) : globals :=
  {| history := history g;
     commands := commands g ++ [cmd];
     cmd_counter := S (cmd_counter g) |}.

(** Where a thread is in its handler: the request is there and the
    handler has not touched the globals yet; [mt4_webhook] is between its
    two blocks (line 164); [send_command] has built [cmd] and waits for
    [commands_lock] (line 206); the handler is over. *)
Inductive thread :=
| Waiting (c : call)
| Recorded
| Built (cmd : command)
| Done (o : outcome).

(** The next step of a thread on the globals as they are. *)
Definition step (t : thread) (g : globals) : thread * globals :=
  match t with
  | Waiting (Echo rq) =>
      match build_record rq with
      | inr rec => (Recorded, mt4_webhook_store g rec)
      | inl e => (Done (Escapes e), g)
      end
  | Recorded => let '(o, g') := mt4_webhook_drain g in (Done o, g')
  | Waiting (Send rq) =>
      match send_command_build (cmd_counter g) rq with
      | Some cmd => (Built cmd, g)
      | None => (Done to_index, g)
      end
  | Built cmd => (Done to_index, send_command_append g cmd)
  | Waiting (Delete index) =>
      let '(o, g') := delete_command_route g index in (Done o, g')
  | Waiting Clear => let '(o, g') := clear_commands g in (Done o, g')
  | Done o => (Done o, g)
  end.

(** [l] with its item at position [i] replaced *)
Fixpoint replace_at (A : Type) (l : list A) (i : nat) (x : A) : list A :=
  match l, i with
  | [], _ => []
  | _ :: l', O => x :: l'
  | y :: l', S i' => y :: replace_at l' i' x
  end.

(** The process: the threads of the requests it has, and the globals. *)
Record process := {
  threads : list thread;
  shared : globals
}.

(** The calls [cs] arrive at a process whose globals are [g].  A request
    that arrives later than another is a thread that takes its first step
    later. *)
Definition spawn (g : globals) (cs : list call) : process :=
  {| threads := map Waiting cs; shared := g |}.

(** Thread [i] takes its next step; nothing happens when there is no such
    thread or its handler is over. *)
Definition advance (s : process) (i : nat) : process :=
  match nth_error (threads s) i with
  | Some t =>
      let '(t', g') := step t (shared s) in
      {| threads := replace_at (threads s) i t'; shared := g' |}
  | None => s
  end.

(** An interleaving is the list of the threads that step, in time order. *)
Definition exec (s : process) (schedule : list nat) : process :=
  fold_left advance schedule s.

(** The schedule in which [n] handlers run one after the other. *)
Definition serial (n : nat) : list nat :=
  flat_map (fun i => [i; i]) (seq 0 n).


Definition drained_at (s : process) (i : nat) : list command :=
  match nth_error (threads s) i with
  | Some Recorded => commands (shared s)
  | _ => []
  end.



(** What every interleaving keeps of the ids: in the queue they are below
    the counter, and in a command that waits to be appended not above it. *)
Definition ids_bounded (s : process) : Prop :=
  Forall (fun c => id c < cmd_counter (shared s)) (commands (shared s))
  /\ Forall (fun t => match t with
                      | Built cmd => id cmd <= cmd_counter (shared s)
                      | _ => True
                      end) (threads s).
End Threads.

(** A terminal report with the given body, and an operator form. *)
Definition post (body : pystr) : request := {|
  data := body;
  req_headers := [];
  remote_addr := Some (lit "127.0.0.1");
  req_method := lit "POST";
  req_path := lit "/web/api/echo";
  form := [];
  now := fun _ => lit "2024-01-01 00:00:00"
|}.

Definition submit (fields : list (string * string)) : request := {|
  data := [];
  req_headers := [];
  remote_addr := Some (lit "127.0.0.1");
  req_method := lit "POST";
  req_path := lit "/send_command";
  form := map (fun kv => (lit (fst kv), lit (snd kv))) fields;
  now := fun _ => lit "00:00:00"
|}.

(** ** Vocabulary of the properties *)

(** The deque after the records [rs] were appended in this order. *)
Definition appended (maxlen : nat) (rs : list record) : list record :=
  fold_left (fun d r => appendleft maxlen r d) rs [].

Section Vocabulary.
Context {B : Builtins}.

(** The body of the answer: the pending lines, or the sentinel. *)
Definition wire_body (g : globals) : pystr :=
  match map format_command (commands g) with
  | [] => lit "NOCOMMAND"
  | l :: ls => join [10%N] (l :: ls)
  end.

(** The globals after a report that was recorded as [rec]. *)
Definition recorded (g : globals) (rec : record) : globals :=
  {| history := appendleft MAX_HISTORY rec (history g);
     commands := [];
     cmd_counter := cmd_counter g |}.

(** A form field as [send_command] reads it, trimmed. *)
Definition field (rq : request) (name : string) : pystr :=
  strip (form_get (form rq) (lit name)).

(** The requests the validation turns away: no symbol, a direction other
    than [BUY] and [SELL], no volume or one that is not a number, or a stop
    loss or take profit that is given and is not a number. *)
Definition rejected (rq : request) : Prop :=
  str_upper (field rq "symbol") = []
  \/ (str_upper (field rq "direction") <> lit "BUY"
      /\ str_upper (field rq "direction") <> lit "SELL")
  \/ field rq "volume" = []
  \/ float_of_str (field rq "volume") = None
  \/ (field rq "sl" <> [] /\ float_of_str (field rq "sl") = None)
  \/ (field rq "tp" <> [] /\ float_of_str (field rq "tp") = None).
End Vocabulary.

(** A form whose values are any text, a line feed included. *)
Definition submit_text (fields : list (string * pystr)) : request := {|
  data := [];
  req_headers := [];
  remote_addr := Some (lit "127.0.0.1");
  req_method := lit "POST";
  req_path := lit "/send_command";
  form := map (fun kv => (lit (fst kv), snd kv)) fields;
  now := fun _ => lit "00:00:00"
|}.

(** The lines of a body: the text between its line feeds, which is what
    the terminal takes for one command each. *)
Fixpoint split_lines (s : pystr) : list pystr :=
  match s with
  | [] => [[]]
  | c :: s' =>
      if (c =? 10)%N then [] :: split_lines s'
      else
        match split_lines s' with
        | l :: ls => (c :: l) :: ls
        | [] => [[c]]
        end
  end.

(** A text without a line feed *)
Definition one_line (s : pystr) : Prop := ~ In 10%N s.

(** The queue with one command, for the examples. *)
Definition one_command : globals :=
  snd (send_command startup
         (submit [("symbol", "EURUSD"); ("direction", "BUY");
                  ("volume", "1")]%string)).

(** What the loops of the decoder need from a scanner: a value it reads
    takes at least one character, and its own loop counts do not run out. *)
Definition consuming (A : Type) (f : pystr -> PyJson.scanned A) : Prop :=
  forall s,
    f s <> PyJson.Stuck
    /\ forall a r, f s = PyJson.Got a r -> List.length r < List.length s.

(** ** Vocabulary of the properties of runs *)

Section RunVocabulary.
Context {B : Builtins}.

(** Whether the handler answers the report; the globals play no part. *)
Definition answered (rq : request) : bool :=
  match fst (mt4_webhook startup rq) with
  | Returns _ => true
  | Escapes _ => false
  end.

(** The reports among the calls that were answered, in their order. *)
Definition reports (cs : list call) : list request :=
  flat_map (fun c => match c with
                     | Echo rq => if answered rq then [rq] else []
                     | _ => []
                     end) cs.




(** A stop loss or take profit as [send_command] stores it: [None] for an
    empty field, [float] of the field otherwise. *)
Definition optional_number (t : pystr) : option pyfloat :=
  match t with
  | [] => None
  | _ :: _ => float_of_str t
  end.

(** The state of the queue that every call keeps: ids increasing along the
    queue, each below the counter. *)
Definition queue_in_order (g : globals) : Prop :=
  StronglySorted lt (map id (commands g))
  /\ Forall (fun c => id c < cmd_counter g) (commands g).

(** A command as the validation lets it in. *)
Definition well_formed (c : command) : Prop :=
  symbol c <> [] /\ (direction c = lit "BUY" \/ direction c = lit "SELL").
End RunVocabulary.

(** ** Vocabulary of the properties of the detail view *)

Definition is_dict (v : value) : Prop := exists d, v = VDict d.

(** The positions of a parsed object are the list [l]: the list under the
    key, or none when the key is missing. *)
Definition listed_positions (d : list (pystr * value)) (l : list value)
  : Prop :=
  (dict_find d (lit "positions") = None /\ l = [])
  \/ dict_find d (lit "positions") = Some (VList l).

(** The metrics of a parsed object are missing or an object. *)
Definition metrics_ok (d : list (pystr * value)) : Prop :=
  dict_find d (lit "metrics") = None
  \/ exists m, dict_find d (lit "metrics") = Some (VDict m).

(** The keys of the parsed object that the view copies. *)
Definition copied_keys : list string :=
  ["account"; "server"; "ts"; "balance"; "equity"; "margin"; "free_margin";
   "margin_level"; "floating_pnl"; "day_start_equity"; "daily_pnl";
   "daily_return"]%string.

(** A position [p] and the same position [p'] as shown: the key
    [open_time_str] holds the text [t], every other key is as it was. *)
Definition shown_as (t : value -> pystr) (p p' : value) : Prop :=
  exists d d',
    p = VDict d /\ p' = VDict d'
    /\ dict_find d' (lit "open_time_str")
       = Some (VStr (t (dict_get d (lit "open_time"))))
    /\ forall k, k <> lit "open_time_str" -> dict_find d' k = dict_find d k.

(** A record with nothing in it, for the examples. *)
Definition blank_record : record := {|
  received_at := lit "2024-01-01 00:00:00";
  ip := None;
  method := lit "POST";
  path := lit "/web/api/echo";
  headers := [];
  body_raw := [];
  parsed := VNone;
  parse_error := None;
  parse_error_detail := None;
  remaining_data := None;
  account := VNone;
  server := VNone;
  balance := VNone;
  equity := VNone;
  floating_pnl := VNone
|}.

(** * Properties *)

Lemma pystr_eqb_eq (a b : pystr) : pystr_eqb a b = true <-> a = b.
Proof.
  unfold pystr_eqb. destruct (list_eq_dec N.eq_dec a b); split; congruence.
Qed.

(** ** The history ring *)

Section Ring.
Variable maxlen : nat.

Lemma appendleft_firstn (x : record) (d : list record) :
  List.length d <= maxlen ->
  appendleft maxlen x d = firstn maxlen (x :: d).
Proof.
  intros Hd. unfold appendleft.
  destruct (Nat.ltb maxlen (List.length (x :: d))) eqn:E.
  - apply Nat.ltb_lt in E. rewrite removelast_firstn_len.
    simpl List.length in *. f_equal. simpl. lia.
  - apply Nat.ltb_ge in E. symmetry. now apply firstn_all2.
Qed.

Lemma appended_firstn (rs : list record) :
  appended maxlen rs = firstn maxlen (rev rs).
Proof.
  unfold appended. induction rs as [|r rs IH] using rev_ind.
  - now rewrite firstn_nil.
  - rewrite fold_left_app. simpl. rewrite IH, rev_unit.
    rewrite appendleft_firstn.
    + destruct maxlen as [|m]; [reflexivity|].
      rewrite !firstn_cons. f_equal.
      rewrite firstn_firstn. f_equal. lia.
    + rewrite length_firstn. lia.
Qed.

(** The length half of the ring bound: after [N] appends the deque, and so
    its reversed copy, holds [min N maxlen] records. *)
Lemma appended_length (rs : list record) :
  List.length (rev (appended maxlen rs)) = Nat.min (List.length rs) maxlen.
Proof.
  rewrite length_rev, appended_firstn, length_firstn, length_rev. lia.
Qed.

(** The reversed copy lists the retained records in the order they came:
    oldest first. *)
Lemma rev_appended (rs : list record) :
  rev (appended maxlen rs) = skipn (List.length rs - maxlen) rs.
Proof.
  rewrite appended_firstn, firstn_rev, rev_involutive. reflexivity.
Qed.
End Ring.

(** One recorded report on a history within its bound: the record is at the
    left end and the history stays within the bound. *)
Lemma recorded_history (g : globals) (rec : record) :
  List.length (history g) <= MAX_HISTORY ->
  history (recorded g rec) = firstn MAX_HISTORY (rec :: history g)
  /\ List.length (history (recorded g rec)) <= MAX_HISTORY.
Proof.
  intros H. simpl. rewrite appendleft_firstn by exact H.
  split; [reflexivity|]. rewrite length_firstn. lia.
Qed.

(** ** The ingestion handler *)

Section Ingestion.
Context {B : Builtins}.

Lemma headline_falsy (v : value) (key : string) :
  truthy v = false -> headline v key = inr VNone.
Proof. unfold headline. now intros ->. Qed.

Lemma headline_dict (d : list (pystr * value)) (key : string) :
  exists v, headline (VDict d) key = inr v.
Proof.
  unfold headline. destruct (truthy (VDict d)); simpl; eauto.
Qed.

Lemma headline_other (v : value) (key : string) :
  truthy v = true -> (forall d, v <> VDict d) ->
  exists e, headline v key = inl e.
Proof.
  unfold headline. intros -> Hd.
  destruct v; simpl; eauto. now destruct (Hd d).
Qed.

(** The handler stops in one of two ways: the exception of a [.get] on a
    value without that method escapes and nothing was stored, or the
    report is recorded, the queue is emptied and the answer is 200.  The
    record keeps the body as it came and at most 200 characters of
    trailing data, and a record with an error has no parsed value. *)
Lemma mt4_webhook_cases (g : globals) (rq : request) :
  (exists e, mt4_webhook g rq = (Escapes e, g))
  \/ (exists rec,
        mt4_webhook g rq
        = (Returns (Text (wire_body g) 200 text_plain), recorded g rec)
        /\ body_raw rec = data rq
        /\ (forall t, remaining_data rec = Some t -> List.length t <= 200)
        /\ (parse_error rec = None \/ parsed rec = VNone)).
Proof.
  unfold mt4_webhook, wire_body, recorded.
  destruct (raw_decode (strip (data rq))) as [obj idx|e].
  - destruct (headline obj "account") as [e1|v1]; [left; eauto|].
    destruct (headline obj "server") as [e2|v2]; [left; eauto|].
    destruct (headline obj "balance") as [e3|v3]; [left; eauto|].
    destruct (headline obj "equity") as [e4|v4]; [left; eauto|].
    destruct (headline obj "floating_pnl") as [e5|v5]; [left; eauto|].
    right.
    assert (Hlen : forall t,
               match strip (skipn idx (strip (data rq))) with
               | [] => None
               | _ :: _ =>
                   Some (firstn 200 (strip (skipn idx (strip (data rq)))))
               end = Some t -> List.length t <= 200).
    { intros t. destruct (strip (skipn idx (strip (data rq)))) as [|c r];
        [discriminate|].
        intros H. replace t with (firstn 200 (c :: r)) by congruence.
        rewrite length_firstn. lia. }
    destruct (map format_command (commands g));
      eexists; (split; [reflexivity|]); simpl; auto.
  - right.
    destruct e; simpl;
      destruct (map format_command (commands g));
      eexists; (split; [reflexivity|]); simpl;
      (repeat split; auto; discriminate).
Qed.

(** A decoded value that is true in a test and is not a [dict] makes the
    handler fail at the first headline field. *)
Lemma truthy_non_dict_escapes (g : globals) (rq : request)
      (obj : value) (idx : nat) :
  raw_decode (strip (data rq)) = PyJson.Decoded obj idx ->
  truthy obj = true -> (forall d, obj <> VDict d) ->
  exists e, mt4_webhook g rq = (Escapes e, g).
Proof.
  intros Hdec Ht Hd. unfold mt4_webhook. rewrite Hdec.
  destruct (@headline_other obj "account" Ht Hd) as [e ->]. eauto.
Qed.

(** A decoded value that is false in a test ([null], [false], [0], [0.0],
    the empty string, [[]], [{}]) or a [dict] is recorded and answered. *)
Lemma falsy_or_dict_recorded (g : globals) (rq : request)
      (obj : value) (idx : nat) :
  raw_decode (strip (data rq)) = PyJson.Decoded obj idx ->
  truthy obj = false \/ (exists d, obj = VDict d) ->
  exists rec,
    mt4_webhook g rq
    = (Returns (Text (wire_body g) 200 text_plain), recorded g rec)
    /\ parsed rec = obj /\ parse_error rec = None.
Proof.
  intros Hdec Hv. unfold mt4_webhook, wire_body, recorded. rewrite Hdec.
  assert (Hk : forall key, exists v, headline obj key = inr v).
  { intros key. destruct Hv as [Hf|[d ->]].
    - rewrite headline_falsy by exact Hf. eauto.
    - apply headline_dict. }
  destruct (Hk "account"%string) as [v1 ->].
  destruct (Hk "server"%string) as [v2 ->].
  destruct (Hk "balance"%string) as [v3 ->].
  destruct (Hk "equity"%string) as [v4 ->].
  destruct (Hk "floating_pnl"%string) as [v5 ->].
  destruct (map format_command (commands g)); eauto.
Qed.

End Ingestion.

(** *** Reports that do not decode *)

Lemma str_of_exn_nonempty (msg doc : pystr) (pos : nat) :
  str_of_exn (JSONDecodeError msg doc pos) <> [].
Proof.
  unfold str_of_exn. destruct msg; [|discriminate].
  cbn. discriminate.
Qed.

(** With the decoder of CPython a body that is empty after trimming always
    fails, with the reason [Expecting value: line 1 column 1 (char 0)]. *)
Lemma empty_body_fails (body : pystr) :
  strip body = [] ->
  raw_decode (strip body)
  = PyJson.Raises (JSONDecodeError (lit "Expecting value") [] 0).
Proof. intros ->. reflexivity. Qed.

(** C5: when decoding the trimmed body raises, the handler stores a record
    with no parsed value and a non-empty [parse_error], keeps the raw body,
    and answers 200, [text/plain], with [NOCOMMAND] if the queue is empty and
    the pending lines joined by newlines otherwise. *)
Theorem parse_failure_recorded (B : Builtins) (g : globals) (rq : request)
        (e : exn) :
  raw_decode (strip (data rq)) = PyJson.Raises e ->
  exists rec reason body,
    mt4_webhook g rq = (Returns (Text body 200 text_plain), recorded g rec)
    /\ parse_error rec = Some reason /\ reason <> []
    /\ parsed rec = VNone /\ body_raw rec = data rq
    /\ (commands g = [] /\ body = lit "NOCOMMAND"
        \/ commands g <> []
           /\ body = join [10%N] (map format_command (commands g))).
Proof.
  intros Hdec. unfold mt4_webhook, recorded. rewrite Hdec.
  assert (Hbody : forall ls : list pystr,
             ls = map format_command (commands g) ->
             commands g = [] /\ ls = []
             \/ commands g <> [] /\ exists l ls', ls = l :: ls').
  { intros ls ->. destruct (commands g); [now left|right].
    split; [discriminate|]. simpl. eauto. }
  destruct (Hbody _ eq_refl) as [[Hc Hl]|[Hc (l & ls' & Hl)]]; rewrite Hl.
  - destruct e; simpl; do 3 eexists; (split; [reflexivity|]); simpl;
      (split; [reflexivity|]);
      (split; [first [apply str_of_exn_nonempty | discriminate]|]); auto.
  - destruct e; simpl; do 3 eexists; (split; [reflexivity|]); simpl;
      (split; [reflexivity|]);
      (split; [first [apply str_of_exn_nonempty | discriminate]|]);
      (do 2 (split; [reflexivity|])); right; (split; [exact Hc|reflexivity]).
Qed.

Lemma parse_failure_recorded_witness :
  raw_decode (strip (data (post (lit "not json"))))
  = PyJson.Raises (JSONDecodeError (lit "Expecting value") (lit "not json") 0)
  /\ exists rec reason body,
       mt4_webhook startup (post (lit "not json"))
       = (Returns (Text body 200 text_plain), recorded startup rec)
       /\ parse_error rec = Some reason /\ reason <> []
       /\ parsed rec = VNone /\ body_raw rec = data (post (lit "not json"))
       /\ (commands startup = [] /\ body = lit "NOCOMMAND"
           \/ commands startup <> []
              /\ body = join [10%N] (map format_command (commands startup))).
Proof.
  split.
  - vm_compute. reflexivity.
  - apply (@parse_failure_recorded cpython startup (post (lit "not json"))
             (JSONDecodeError (lit "Expecting value") (lit "not json") 0)).
    vm_compute. reflexivity.
Defined.

(** *** Values that are not objects *)

(** C1: the bodies [5] and [[1]] decode, to an [int] and a [list]; the test
    [if parsed_json] lets them through to [.get], the [AttributeError]
    escapes the handler, nothing is recorded and no 200 is sent. *)
Theorem bare_value_escapes :
  mt4_webhook startup (post (lit "5"))
  = (Escapes (AttributeError (lit "'int' object has no attribute 'get'")),
     startup)
  /\ mt4_webhook startup (post (lit "[1]"))
     = (Escapes (AttributeError (lit "'list' object has no attribute 'get'")),
        startup).
Proof. split; vm_compute; reflexivity. Qed.

(** The values that the test [if parsed_json] stops are recorded without
    headline fields: here [0], [[]] and [null]. *)
Lemma falsy_values_recorded :
  forall body, In body [lit "0"; lit "[]"; lit "null"; lit "false"] ->
  exists rec,
    mt4_webhook startup (post body)
    = (Returns (Text (lit "NOCOMMAND") 200 text_plain), recorded startup rec)
    /\ parse_error rec = None
    /\ (account rec, server rec, balance rec, equity rec, floating_pnl rec)
       = (VNone, VNone, VNone, VNone, VNone).
Proof.
  intros body [<-|[<-|[<-|[<-|[]]]]];
    eexists; (split; [vm_compute; reflexivity|]); split; reflexivity.
Qed.

(** *** The document splitter *)

(** C6: on [{"a":1}{"b":2}] the record holds the first value [{"a": 1}] and
    the trailing data [{"b":2}], which is not decoded; 300 characters after
    a value are kept as their first 200; on an empty body and on [not json]
    the record holds no value and the reason
    [Expecting value: line 1 column 1 (char 0)]. *)
Theorem split_correctness :
  let first (body : pystr) :=
    map (fun r => (parsed r, remaining_data r, parse_error r))
        (history (snd (mt4_webhook startup (post body)))) in
  first (dq "{'a':1}{'b':2}")
  = [(VDict [(lit "a", VInt 1)], Some (dq "{'b':2}"), None)]
  /\ first (lit "{} " ++ repeat 120%N 300)
     = [(VDict [], Some (repeat 120%N 200), None)]
  /\ first []
     = [(VNone, None, Some (lit "Expecting value: line 1 column 1 (char 0)"))]
  /\ first (lit "not json")
     = [(VNone, None, Some (lit "Expecting value: line 1 column 1 (char 0)"))].
Proof. repeat split; vm_compute; reflexivity. Qed.

(** *** The order of the history *)

(** C2: after the reports [{"account":1}] and then [{"account":2}], the list
    [index] builds from the history starts with the first report, and that
    one is handed to the template as the latest record. *)
Theorem latest_is_oldest :
  let g := run startup [Echo (post (dq "{'account':1}"));
                        Echo (post (dq "{'account':2}"))] in
  map account (page_history (index g)) = [VInt 1; VInt 2]
  /\ option_map account (latest_raw (index g)) = Some (VInt 1).
Proof. vm_compute. split; reflexivity. Qed.

(** ** The command queue *)

Section Queue.
Context {B : Builtins}.

Lemma pystr_eqb_false (a b : pystr) : a <> b -> pystr_eqb a b = false.
Proof.
  intros H. destruct (pystr_eqb a b) eqn:E; [|reflexivity].
  apply pystr_eqb_eq in E. contradiction.
Qed.

Lemma send_command_rejected (g : globals) (rq : request) :
  rejected rq -> send_command g rq = (to_index, g).
Proof.
  unfold rejected, send_command, field.
  set (symbol := str_upper (strip (form_get (form rq) (lit "symbol")))).
  set (direction := str_upper (strip (form_get (form rq) (lit "direction")))).
  set (volume := strip (form_get (form rq) (lit "volume"))).
  set (sl := strip (form_get (form rq) (lit "sl"))).
  set (tp := strip (form_get (form rq) (lit "tp"))).
  intros [H|[[H1 H2]|[H|[H|[[H1 H2]|[H1 H2]]]]]].
  - rewrite H. reflexivity.
  - simpl existsb. rewrite (pystr_eqb_false H1), (pystr_eqb_false H2).
    simpl. now rewrite orb_true_r.
  - rewrite H. simpl. now rewrite orb_true_r.
  - rewrite H.
    now destruct (_ || _ || _).
  - destruct (_ || _ || _); [reflexivity|].
    destruct (float_of_str volume); [|reflexivity].
    destruct sl; [contradiction|]. rewrite H2. reflexivity.
  - destruct (_ || _ || _); [reflexivity|].
    destruct (float_of_str volume); [|reflexivity].
    destruct (match sl with [] => _ | _ :: _ => _ end); [|reflexivity].
    destruct tp; [contradiction|]. rewrite H2. reflexivity.
Qed.

(** [send_command] either leaves the globals alone or appends one command
    that carries the counter as its id, and adds one to the counter. *)
Lemma send_command_cases (g : globals) (rq : request) :
  send_command g rq = (to_index, g)
  \/ exists cmd,
       send_command g rq
       = (to_index, {| history := history g;
                       commands := commands g ++ [cmd];
                       cmd_counter := S (cmd_counter g) |})
       /\ id cmd = cmd_counter g.
Proof.
  unfold send_command.
  destruct (_ || _ || _); [now left|].
  destruct (float_of_str _); [|now left].
  destruct (match strip (form_get (form rq) (lit "sl")) with
            | [] => _ | _ :: _ => _ end); [|now left].
  destruct (match strip (form_get (form rq) (lit "tp")) with
            | [] => _ | _ :: _ => _ end); [|now left].
  right. eexists. split; reflexivity.
Qed.

(** The route of [delete_command] does to the globals what the function
    does: nothing, for a negative position. *)
Lemma delete_command_route_globals (g : globals) (index : Z) :
  snd (delete_command_route g index) = snd (delete_command g index).
Proof.
  unfold delete_command_route, delete_command.
  destruct (index <? 0)%Z eqn:E; [|reflexivity].
  apply Z.ltb_lt in E.
  destruct (0 <=? index)%Z eqn:E'; [|reflexivity].
  apply Z.leb_le in E'. lia.
Qed.

(** One call gives out no id and keeps the counter, or gives out the
    counter and adds one to it. *)
Lemma handle_counter (g : globals) (c : call) :
  (map id (enqueued_by g c) = []
   /\ cmd_counter (snd (handle g c)) = cmd_counter g)
  \/ (map id (enqueued_by g c) = [cmd_counter g]
      /\ cmd_counter (snd (handle g c)) = S (cmd_counter g)).
Proof.
  destruct c as [rq|rq|index|]; simpl.
  - left. split; [reflexivity|].
    destruct (mt4_webhook_cases g rq) as [[e ->]|(rec & -> & _)];
      reflexivity.
  - destruct (send_command_cases g rq) as [->|(cmd & -> & Hid)]; simpl.
    + left. now rewrite skipn_all.
    + right. rewrite skipn_app, skipn_all, Nat.sub_diag. simpl.
      now rewrite Hid.
  - left. split; [reflexivity|]. rewrite delete_command_route_globals.
    unfold delete_command. now destruct (_ && _)%bool.
  - now left.
Qed.

(** The ids given out during a run are the values the counter went
    through. *)
Lemma assigned_seq (cs : list call) (g : globals) :
  assigned g cs
  = seq (cmd_counter g) (cmd_counter (run g cs) - cmd_counter g)
  /\ cmd_counter g <= cmd_counter (run g cs).
Proof.
  revert g. induction cs as [|c cs IH]; intros g; simpl.
  - rewrite Nat.sub_diag. split; [reflexivity|lia].
  - destruct (IH (snd (handle g c))) as [IH1 IH2].
    unfold run in *. rewrite IH1.
    destruct (handle_counter g c) as [[-> Hc]|[-> Hc]]; rewrite Hc in *.
    + split; [reflexivity|lia].
    + split; [|lia]. simpl.
      replace (cmd_counter (fold_left _ cs _) - cmd_counter g)
        with (S (cmd_counter
                   (fold_left (fun g c => snd (handle g c)) cs
                      (snd (handle g c))) - S (cmd_counter g))) by lia.
      reflexivity.
Qed.

Lemma seq_strictly_sorted (n a : nat) : StronglySorted lt (seq a n).
Proof.
  revert a. induction n as [|n IH]; intros a; simpl; constructor.
  - apply IH.
  - apply Forall_forall. intros x Hx. apply in_seq in Hx. lia.
Qed.
End Queue.

(** *** Validation *)

(** C3: a form with the volume [0], and one with the volume [-1], pass the
    validation: each is put in the queue, with a volume that is not
    positive, and would be sent as [BUY,EURUSD,0.0] and [BUY,EURUSD,-1.0]. *)
Theorem non_positive_volume_enqueued :
  let order (vol : string) :=
    commands (snd (send_command startup
                     (submit [("symbol", "EURUSD"); ("direction", "BUY");
                              ("volume", vol)]%string))) in
  map volume (order "0"%string) = [SpecFloat.S754_zero false]
  /\ map format_command (order "0"%string) = [lit "BUY,EURUSD,0.0"]
  /\ map volume (order "-1"%string)
     = [SpecFloat.S754_finite true 4503599627370496 (-52)]
  /\ map format_command (order "-1"%string) = [lit "BUY,EURUSD,-1.0"].
Proof. repeat split; vm_compute; reflexivity. Qed.

(** The checks that are made do keep a command out: the two forms below, one
    without a symbol and one with the direction [HOLD], add nothing. *)
Lemma validation_gate :
  send_command startup
    (submit [("symbol", EmptyString); ("direction", "BUY");
             ("volume", "1")]%string)
  = (to_index, startup)
  /\ send_command startup
       (submit [("symbol", "EURUSD"); ("direction", "HOLD");
                ("volume", "1")]%string)
     = (to_index, startup).
Proof. split; vm_compute; reflexivity. Qed.

(** A request the validation turns away leaves the three globals as they
    were, the counter included; and when the calls are handled one after
    the other, the ids given out since the start of the process are
    [0, 1, 2, ...] without a gap. *)
Lemma rejected_request_changes_nothing (B : Builtins) (g : globals)
        (rq : request) (cs : list call) :
  rejected rq ->
  send_command g rq = (to_index, g)
  /\ assigned startup cs = seq 0 (List.length (assigned startup cs)).
Proof.
  intros Hr. split; [now apply send_command_rejected|].
  destruct (assigned_seq cs startup) as [-> _].
  now rewrite length_seq.
Qed.

Lemma rejected_request_changes_nothing_witness :
  let rq := submit [("symbol", "EURUSD"); ("direction", "BUY");
                    ("volume", "abc")]%string in
  let ok := submit [("symbol", "EURUSD"); ("direction", "SELL");
                    ("volume", "2")]%string in
  let cs := [Send ok; Send rq; Clear; Send ok] in
  rejected rq
  /\ send_command startup rq = (to_index, startup)
  /\ assigned startup cs = seq 0 (List.length (assigned startup cs)).
Proof.
  intros rq ok cs.
  assert (Hr : rejected rq).
  { do 3 right. left. vm_compute. reflexivity. }
  split; [exact Hr|].
  exact (@rejected_request_changes_nothing cpython startup rq cs Hr).
Defined.

(** *** Identifiers *)

(** When the calls are handled one after the other, from any state and
    with deletions, clearings and drains in between, the ids given out are
    strictly increasing, so no id is given twice, and none is below the
    counter the run started from. *)
Lemma ids_strictly_increasing (B : Builtins) (g : globals)
        (cs : list call) :
  StronglySorted lt (assigned g cs)
  /\ NoDup (assigned g cs)
  /\ Forall (fun i => cmd_counter g <= i) (assigned g cs).
Proof.
  destruct (assigned_seq cs g) as [-> _]. repeat split.
  - apply seq_strictly_sorted.
  - apply seq_NoDup.
  - apply Forall_forall. intros i Hi. apply in_seq in Hi. lia.
Qed.

(** *** Deletion by position *)

(** C9 as stated fails: the answer to a deletion out of range (position 7 of
    a queue of one) is not different from the answer to a deletion that
    removed a command (position 0); no failure is reported. *)
Lemma delete_reports_no_failure :
  ~ (fst (delete_command one_command 7) <> fst (delete_command one_command 0))
  /\ commands (snd (delete_command one_command 0)) = []
  /\ commands (snd (delete_command one_command 7)) = commands one_command.
Proof.
  split; [|split; vm_compute; reflexivity].
  intros H. apply H. vm_compute. reflexivity.
Qed.

(** C9, amended: for a position at or beyond [len(commands)] the request
    reaches [delete_command], which changes none of the globals and raises
    nothing; it answers with the redirect to the index page, as it does
    after a deletion that removed a command. *)
Theorem delete_out_of_range (g : globals) (index : Z) :
  (Z.of_nat (List.length (commands g)) <= index)%Z ->
  delete_command_route g index = (to_index, g)
  /\ delete_command g index = (to_index, g).
Proof.
  intros H.
  assert (Hd : delete_command g index = (to_index, g)).
  { unfold delete_command.
    destruct ((0 <=? index) && (index <? _))%Z eqn:E; [|reflexivity].
    apply andb_prop in E. destruct E as [_ E]. apply Z.ltb_lt in E. lia. }
  split; [|exact Hd]. unfold delete_command_route.
  destruct (index <? 0)%Z eqn:E; [|exact Hd].
  apply Z.ltb_lt in E. lia.
Qed.

Lemma delete_out_of_range_witness :
  (Z.of_nat (List.length (commands one_command)) <= 7)%Z
  /\ delete_command_route one_command 7 = (to_index, one_command)
  /\ delete_command one_command 7 = (to_index, one_command).
Proof.
  assert (H : (Z.of_nat (List.length (commands one_command)) <= 7)%Z).
  { vm_compute. discriminate. }
  split; [exact H|]. exact (@delete_out_of_range one_command 7%Z H).
Defined.

(** A negative position is not a matter for [delete_command]: the request
    matches no route and is answered 404, the globals as they were. *)
Lemma negative_position_not_routed (g : globals) (index : Z) :
  (index < 0)%Z -> delete_command_route g index = (Returns NotFound, g).
Proof.
  intros H. unfold delete_command_route.
  now destruct (Z.ltb_spec index 0); [|lia].
Qed.

(** *** The wire format *)

(** A command is rendered as [DIRECTION,SYMBOL,VOLUME], followed by
    [,SL,0], [,0,TP] or [,SL,TP] when a stop loss, a take profit or both are
    set; the form [eurusd], [buy], [0.10], [1.1000] is stored with the
    symbol [EURUSD] and drained as [BUY,EURUSD,0.1,1.1,0], and without the
    stop loss as [BUY,EURUSD,0.1]; every answer of the handler is the
    renderings of the pending commands joined by line feeds, and exactly
    [NOCOMMAND] when the queue is empty. *)
Lemma wire_format (B : Builtins) (d s t : pystr) (v x y : pyfloat)
      (n c : nat) (h : list record) (c0 : command) (q : list command)
      (rq : request) :
  let cmd (sl tp : option pyfloat) :=
    {| id := n; symbol := s; direction := d; volume := v;
       sl := sl; tp := tp; timestamp := t |} in
  let base := d ++ comma ++ s ++ comma ++ str_of_float v in
  let drained (fields : list (string * string)) :=
    fst (mt4_webhook (B := cpython)
           (snd (send_command (B := cpython) startup (submit fields)))
           (post (lit "{}"))) in
  format_command (cmd None None) = base
  /\ format_command (cmd (Some x) None)
     = base ++ comma ++ str_of_float x ++ lit ",0"
  /\ format_command (cmd None (Some y))
     = base ++ lit ",0," ++ str_of_float y
  /\ format_command (cmd (Some x) (Some y))
     = base ++ comma ++ str_of_float x ++ comma ++ str_of_float y
  /\ map symbol
       (commands (snd (send_command (B := cpython) startup
                         (submit [("symbol", "eurusd"); ("direction", "buy");
                                  ("volume", "0.10");
                                  ("sl", "1.1000")]%string))))
     = [lit "EURUSD"]
  /\ drained [("symbol", "eurusd"); ("direction", "buy");
              ("volume", "0.10"); ("sl", "1.1000")]%string
     = Returns (Text (lit "BUY,EURUSD,0.1,1.1,0") 200 text_plain)
  /\ drained [("symbol", "eurusd"); ("direction", "buy");
              ("volume", "0.10")]%string
     = Returns (Text (lit "BUY,EURUSD,0.1") 200 text_plain)
  /\ match fst (mt4_webhook
                  {| history := h; commands := c0 :: q;
                     cmd_counter := c |} rq)
     with
     | Returns r =>
         r = Text (join [10%N] (map format_command (c0 :: q)))
               200 text_plain
     | Escapes _ => True
     end
  /\ match fst (mt4_webhook
                  {| history := h; commands := []; cmd_counter := c |} rq)
     with
     | Returns r => r = Text (lit "NOCOMMAND") 200 text_plain
     | Escapes _ => True
     end.
Proof.
  intros cmd base drained.
  split; [reflexivity|]. split; [reflexivity|]. split; [reflexivity|].
  split; [reflexivity|].
  split; [vm_compute; reflexivity|].
  split; [vm_compute; reflexivity|].
  split; [vm_compute; reflexivity|].
  split.
  - destruct (mt4_webhook_cases
                {| history := h; commands := c0 :: q;
                   cmd_counter := c |} rq)
      as [[e ->]|(rec & -> & _)]; [exact I|reflexivity].
  - destruct (mt4_webhook_cases
                {| history := h; commands := []; cmd_counter := c |} rq)
      as [[e ->]|(rec & -> & _)]; [exact I|reflexivity].
Qed.

(** C7: a symbol is trimmed at its ends only, so the form with the symbol
    [eur], line feed, [SELL,GBPUSD,9] passes the checks and is queued as
    one command; the next report is answered with that one command on two
    lines, [BUY,EUR] and [SELL,GBPUSD,9,1.0]. *)
Theorem line_feed_in_symbol_takes_two_lines :
  let rq := submit_text
              [("symbol"%string, lit "eur" ++ [10%N] ++ lit "SELL,GBPUSD,9");
               ("direction"%string, lit "buy");
               ("volume"%string, lit "1")] in
  let g := snd (send_command (B := cpython) startup rq) in
  let body := lit "BUY,EUR" ++ [10%N] ++ lit "SELL,GBPUSD,9,1.0" in
  map symbol (commands g) = [lit "EUR" ++ [10%N] ++ lit "SELL,GBPUSD,9"]
  /\ fst (mt4_webhook (B := cpython) g (post (lit "{}")))
     = Returns (Text body 200 text_plain)
  /\ split_lines body = [lit "BUY,EUR"; lit "SELL,GBPUSD,9,1.0"].
Proof. repeat split; vm_compute; reflexivity. Qed.

(** *** When a command takes one line *)

Section Lines.

Lemma one_line_app (a b : pystr) :
  one_line a -> one_line b -> one_line (a ++ b).
Proof.
  unfold one_line. intros Ha Hb H. apply in_app_or in H. tauto.
Qed.

Lemma one_line_cons (c : N) (s : pystr) :
  c <> 10%N -> one_line s -> one_line (c :: s).
Proof.
  unfold one_line. intros Hc Hs [H|H]; [now apply Hc|now apply Hs].
Qed.

Lemma one_line_firstn (n : nat) (s : pystr) :
  one_line s -> one_line (firstn n s).
Proof.
  unfold one_line. intros Hs H. apply Hs.
  rewrite <- (firstn_skipn n s). apply in_or_app. now left.
Qed.

Lemma one_line_skipn (n : nat) (s : pystr) :
  one_line s -> one_line (skipn n s).
Proof.
  unfold one_line. intros Hs H. apply Hs.
  rewrite <- (firstn_skipn n s). apply in_or_app. now right.
Qed.

Lemma one_line_digits (d : Decimal.uint) : one_line (digits_of_uint d).
Proof.
  induction d; cbn [digits_of_uint];
    try (apply one_line_cons; [discriminate|assumption]).
  intros H. exact H.
Qed.

Lemma one_line_zeros (n : Z) : one_line (PyFloat.zeros n).
Proof.
  unfold one_line, PyFloat.zeros. intros H.
  apply repeat_spec in H. discriminate H.
Qed.

Lemma one_line_exp_text (x : Z) : one_line (PyFloat.exp_text x).
Proof.
  unfold PyFloat.exp_text.
  apply one_line_cons; [now destruct (x <? 0)%Z|].
  destruct (Z.abs x <? 10)%Z;
    [apply one_line_cons; [discriminate|]|]; apply one_line_digits.
Qed.

Lemma one_line_format_short (ds : pystr) (decpt : Z) :
  one_line ds -> one_line (PyFloat.format_short ds decpt).
Proof.
  intros Hds. unfold PyFloat.format_short.
  destruct (_ || _)%bool.
  - destruct ds as [|c [|c' rest]].
    + exact Hds.
    + apply one_line_cons; [intros ->; apply Hds; now left|].
      apply one_line_cons; [discriminate|]. apply one_line_exp_text.
    + apply one_line_cons; [intros ->; apply Hds; now left|].
      apply one_line_cons; [discriminate|].
      apply one_line_app.
      * intros H. apply Hds. now right.
      * apply one_line_cons; [discriminate|]. apply one_line_exp_text.
  - destruct (decpt <=? 0)%Z.
    + do 2 (apply one_line_cons; [discriminate|]).
      apply one_line_app; [apply one_line_zeros|exact Hds].
    + destruct (_ <=? decpt)%Z.
      * apply one_line_app; [exact Hds|].
        apply one_line_app; [apply one_line_zeros|].
        do 2 (apply one_line_cons; [discriminate|]). intros H. exact H.
      * apply one_line_app; [now apply one_line_firstn|].
        apply one_line_cons; [discriminate|]. now apply one_line_skipn.
Qed.

(** The text of a float never holds a line feed. *)
Lemma one_line_repr (x : pyfloat) : one_line (PyFloat.repr x).
Proof.
  destruct x as [[|]|[|]| |s m e]; cbn [PyFloat.repr];
    try (unfold one_line; cbn; intuition discriminate).
  unfold PyFloat.dtoa.
  destruct (PyFloat.shortest 17 m e 1) as [d q].
  destruct (PyFloat.strip_zeros 18 d q) as [d' q'].
  apply one_line_app.
  - destruct s; unfold one_line; cbn; intuition discriminate.
  - apply one_line_format_short. apply one_line_digits.
Qed.

(** A command whose symbol and direction hold no line feed is rendered
    on one line: the symbol is the only field of a queued command that
    can hold one, the direction being [BUY] or [SELL]. *)
Lemma format_command_one_line (cmd : command) :
  one_line (symbol cmd) -> one_line (direction cmd) ->
  one_line (format_command (B := cpython) cmd).
Proof.
  intros Hs Hd. unfold format_command.
  assert (Hc : one_line comma)
    by (unfold one_line; cbn; intuition discriminate).
  assert (Hbase : one_line (direction cmd ++ comma ++ symbol cmd ++ comma
                              ++ str_of_float (volume cmd))).
  { repeat (apply one_line_app; try assumption). apply one_line_repr. }
  destruct (sl cmd), (tp cmd);
    repeat (apply one_line_app; try assumption);
    try apply one_line_repr;
    unfold one_line; cbn; intuition discriminate.
Qed.

Lemma split_lines_one_line (l : pystr) : one_line l -> split_lines l = [l].
Proof.
  unfold one_line. induction l as [|c l IH]; intros H; [reflexivity|].
  cbn [split_lines]. destruct (N.eqb_spec c 10) as [->|_].
  - exfalso. apply H. now left.
  - rewrite IH; [reflexivity|]. intros Hin. apply H. now right.
Qed.

Lemma split_lines_app (l s : pystr) :
  one_line l -> split_lines (l ++ 10%N :: s) = l :: split_lines s.
Proof.
  unfold one_line. induction l as [|c l IH]; intros H; [reflexivity|].
  cbn [app split_lines]. destruct (N.eqb_spec c 10) as [->|_].
  - exfalso. apply H. now left.
  - rewrite IH; [reflexivity|]. intros Hin. apply H. now right.
Qed.

(** Lines without a line feed, joined, are read back as they were: the
    body of an answer has as many lines as commands were pending. *)
Lemma split_lines_join (l : pystr) (ls : list pystr) :
  Forall one_line (l :: ls) ->
  split_lines (join [10%N] (l :: ls)) = l :: ls.
Proof.
  revert l. induction ls as [|l' ls IH]; intros l H.
  - apply split_lines_one_line. now inversion H.
  - inversion H as [|? ? Hl Hls]; subst.
    change (join [10%N] (l :: l' :: ls))
      with (l ++ 10%N :: join [10%N] (l' :: ls)).
    rewrite split_lines_app by exact Hl. now rewrite IH.
Qed.
End Lines.

(** ** The decoder's loop counts

    The two loops of the decoder count their turns down from the length of
    the text left to read.  Every value read consumes at least one
    character, so the counts never run out: [Stuck] is not a result of the
    scanner. *)

Section LoopCounts.
Import PyJson.

Lemma span_shorter (p : N -> bool) (s : pystr) :
  List.length (snd (span p s)) <= List.length s.
Proof.
  induction s as [|c s IH]; simpl; [lia|].
  destruct (p c); [|simpl; lia].
  destruct (span p s). simpl in *. lia.
Qed.

Lemma skip_whitespace_shorter (s : pystr) :
  List.length (skip_whitespace s) <= List.length s.
Proof. apply span_shorter. Qed.

Lemma exponent_shorter (s : pystr) :
  List.length (snd (PyFloat.exponent s)) <= List.length s.
Proof.
  unfold PyFloat.exponent. destruct s as [|c s1]; simpl; [lia|].
  destruct (_ || _)%bool; [|simpl; lia].
  set (sign := match s1 with
               | x :: r => _
               | [] => (false, s1)
               end).
  assert (Hsign : List.length (snd sign) <= List.length s1).
  { subst sign. destruct s1 as [|x r]; simpl; [lia|].
    destruct (x =? 45)%N; [simpl; lia|].
    destruct (x =? 43)%N; simpl; lia. }
  destruct sign as [neg s2]. simpl in Hsign.
  pose proof (span_shorter is_digit s2) as Hs.
  destruct (span is_digit s2) as [[|d ds] rest];
    simpl in *; lia.
Qed.

Lemma scanstring_from_consuming (n : nat) :
  forall begin s acc,
    List.length s <= n ->
    scanstring_from begin s acc <> Stuck
    /\ forall t r, scanstring_from begin s acc = Got t r ->
                   List.length r < List.length s.
Proof.
  induction n as [n IH] using lt_wf_ind. intros begin s acc Hn.
  assert (IH' : forall s' acc',
             List.length s' < List.length s ->
             scanstring_from begin s' acc' <> Stuck
             /\ forall t r, scanstring_from begin s' acc' = Got t r ->
                            List.length r < List.length s).
  { intros s' acc' Hs'.
    destruct (IH (List.length s') ltac:(lia) begin s' acc' (le_n _))
      as [H1 H2].
    split; [exact H1|]. intros t r Hg. specialize (H2 t r Hg). lia. }
  clear IH.
  destruct s as [|c s1]; [split; [discriminate|discriminate]|].
  cbn [scanstring_from].
  destruct (c =? 34)%N.
  { split; [discriminate|]. intros t r [= _ <-]. simpl. lia. }
  destruct (c =? 92)%N.
  2:{ destruct (c <=? 31)%N; [split; discriminate|].
      apply IH'. simpl. lia. }
  destruct s1 as [|e s2]; [split; discriminate|].
  destruct (e =? 117)%N.
  2:{ destruct (escape e); [|split; discriminate].
      apply IH'. simpl. lia. }
  destruct s2 as [|h1 [|h2 [|h3 [|h4 s3]]]]; try (split; discriminate).
  destruct s3 as [|b1 s4]; [split; discriminate|].
  destruct (hex4 h1 h2 h3 h4) as [u|]; [|split; discriminate].
  destruct s4 as [|b2 [|k1 [|k2 [|k3 [|k4 s5]]]]];
    try (apply IH'; simpl; lia).
  destruct s5 as [|x s6]; [apply IH'; simpl; lia|].
  destruct (_ && _ && _)%bool; [|apply IH'; simpl; lia].
  destruct (hex4 k1 k2 k3 k4) as [u2|]; [|split; discriminate].
  destruct (is_low_surrogate u2); apply IH'; simpl; lia.
Qed.

Lemma scanstring_consuming : consuming scanstring.
Proof.
  intros s. unfold scanstring.
  destruct (scanstring_from_consuming s (tl s) [] (le_n _)) as [H1 H2].
  split; [exact H1|]. intros t r Hg. specialize (H2 t r Hg).
  destruct s; simpl in *; lia.
Qed.

Lemma match_number_consuming : consuming match_number.
Proof.
  intros s. unfold match_number.
  set (sign := match s with
               | c :: r => if (c =? 45)%N then (true, r) else (false, s)
               | [] => (false, s)
               end).
  assert (Hsign : List.length (snd sign) <= List.length s).
  { subst sign. destruct s as [|c r]; simpl; [lia|].
    destruct (c =? 45)%N; simpl; lia. }
  destruct sign as [neg s0]. simpl in Hsign.
  destruct s0 as [|c r]; [split; discriminate|].
  set (int_part := if ((49 <=? c) && (c <=? 57))%N then _ else _).
  assert (Hint : forall ip r1, int_part = Some (ip, r1) ->
                               List.length r1 <= List.length r).
  { subst int_part. intros ip r1.
    destruct (_ && _)%bool.
    - pose proof (span_shorter is_digit r) as Hs.
      destruct (span is_digit r). intros [= _ <-]. exact Hs.
    - destruct (c =? 48)%N; [|discriminate]. intros [= _ <-]. lia. }
  destruct int_part as [[ip r1]|]; [|split; discriminate].
  specialize (Hint ip r1 eq_refl).
  set (frac := match r1 with
               | p :: d :: r' => _
               | _ => (false, r1)
               end).
  assert (Hfrac : List.length (snd frac) <= List.length r1).
  { subst frac. destruct r1 as [|p [|d r']]; simpl; try lia.
    destruct (_ && _)%bool; simpl; [|lia].
    pose proof (span_shorter is_digit r'). lia. }
  destruct frac as [has_frac r2]. simpl in Hfrac.
  pose proof (exponent_shorter r2) as Hexp.
  simpl in Hsign.
  destruct (_ || _)%bool.
  - destruct (PyFloat.of_str _); [|split; discriminate].
    split; [discriminate|]. intros a r0 [= _ <-]. simpl in *. lia.
  - destruct (int_of_digits neg ip); [split; discriminate|].
    split; [discriminate|]. intros a r0 [= _ <-]. simpl in *. lia.
Qed.

Section Loops.
Variable scan : pystr -> scanned value.
Hypothesis scan_consuming : consuming scan.

Lemma object_pairs_consuming (n : nat) :
  forall s d,
    List.length s < n ->
    object_pairs scan n s d <> Stuck
    /\ forall v r, object_pairs scan n s d = Got v r ->
                   List.length r < List.length s.
Proof.
  induction n as [|n IH]; intros s d Hn; [lia|].
  cbn [object_pairs].
  destruct s as [|c s0]; [split; discriminate|].
  destruct (negb (c =? 34)%N); [split; discriminate|].
  destruct (scanstring_consuming (c :: s0)) as [K1 K2].
  destruct (scanstring (c :: s0)) as [key s1| | | |];
    try (split; discriminate); [|contradiction].
  specialize (K2 key s1 eq_refl).
  pose proof (skip_whitespace_shorter s1) as W1.
  destruct (skip_whitespace s1) as [|c2 s3]; [split; discriminate|].
  destruct (negb (c2 =? 58)%N); [split; discriminate|].
  pose proof (skip_whitespace_shorter s3) as W3.
  destruct (scan_consuming (skip_whitespace s3)) as [V1 V2].
  destruct (scan (skip_whitespace s3)) as [v s4| | | |];
    try (split; discriminate); [|contradiction].
  specialize (V2 v s4 eq_refl).
  pose proof (skip_whitespace_shorter s4) as W4.
  destruct (skip_whitespace s4) as [|c5 s6]; [split; discriminate|].
  destruct (c5 =? 125)%N.
  { split; [discriminate|]. intros v' r [= _ <-]. simpl in *. lia. }
  destruct (c5 =? 44)%N; [|split; discriminate].
  pose proof (skip_whitespace_shorter s6) as W6.
  destruct (IH (skip_whitespace s6) (dict_set d key v)) as [I1 I2].
  { simpl in *. lia. }
  split; [exact I1|]. intros v' r Hg. specialize (I2 v' r Hg).
  simpl in *. lia.
Qed.

Lemma array_items_consuming (n : nat) :
  forall s acc,
    List.length s < n ->
    array_items scan n s acc <> Stuck
    /\ forall v r, array_items scan n s acc = Got v r ->
                   List.length r < List.length s.
Proof.
  induction n as [|n IH]; intros s acc Hn; [lia|].
  cbn [array_items].
  destruct (scan_consuming s) as [V1 V2].
  destruct (scan s) as [v s1| | | |];
    try (split; discriminate); [|contradiction].
  specialize (V2 v s1 eq_refl).
  pose proof (skip_whitespace_shorter s1) as W1.
  destruct (skip_whitespace s1) as [|c s3]; [split; discriminate|].
  destruct (c =? 93)%N.
  { split; [discriminate|]. intros v' r [= _ <-]. simpl in *. lia. }
  destruct (c =? 44)%N; [|split; discriminate].
  pose proof (skip_whitespace_shorter s3) as W3.
  destruct (IH (skip_whitespace s3) (v :: acc)) as [I1 I2].
  { simpl in *. lia. }
  split; [exact I1|]. intros v' r Hg. specialize (I2 v' r Hg).
  simpl in *. lia.
Qed.

Lemma parse_object_consuming (s : pystr) :
  parse_object scan s <> Stuck
  /\ forall v r, parse_object scan s = Got v r ->
                 List.length r <= List.length s.
Proof.
  unfold parse_object. pose proof (skip_whitespace_shorter s) as W.
  destruct (skip_whitespace s) as [|c s2].
  - split; [|intros v r]; simpl; discriminate.
  - destruct (c =? 125)%N.
    + split; [discriminate|]. intros v r [= _ <-]. simpl in *. lia.
    + destruct (@object_pairs_consuming (S (List.length (c :: s2)))
                  (c :: s2) [] (Nat.lt_succ_diag_r _)) as [I1 I2].
      split; [exact I1|]. intros v r Hg. specialize (I2 v r Hg). lia.
Qed.

Lemma parse_array_consuming (s : pystr) :
  parse_array scan s <> Stuck
  /\ forall v r, parse_array scan s = Got v r ->
                 List.length r <= List.length s.
Proof.
  unfold parse_array. pose proof (skip_whitespace_shorter s) as W.
  destruct (skip_whitespace s) as [|c s2].
  - destruct (@array_items_consuming 1 [] [] (Nat.lt_0_1)) as [I1 I2].
    split; [exact I1|]. intros v r Hg. specialize (I2 v r Hg).
    simpl in *. lia.
  - destruct (c =? 93)%N.
    + split; [discriminate|]. intros v r [= _ <-]. simpl in *. lia.
    + destruct (@array_items_consuming (S (List.length (c :: s2)))
                  (c :: s2) [] (Nat.lt_succ_diag_r _)) as [I1 I2].
      split; [exact I1|]. intros v r Hg. specialize (I2 v r Hg). lia.
Qed.
End Loops.

Lemma scan_once_consuming (depth : nat) : consuming (scan_once depth).
Proof.
  induction depth as [|depth IH]; intros s;
    (destruct s as [|c s1]; [split; discriminate|]);
    cbn [scan_once];
    (destruct (c =? 34)%N;
     [ destruct (scanstring_consuming (c :: s1)) as [K1 K2];
       destruct (scanstring (c :: s1)) as [t r| | | |];
       try (split; discriminate); [|contradiction];
       specialize (K2 t r eq_refl);
       split; [discriminate|]; intros a r0 [= _ <-]; exact K2 |]).
  all: destruct (c =? 123)%N.
  1: split; discriminate.
  2:{ destruct (parse_object_consuming IH s1) as [P1 P2].
      split; [exact P1|]. intros a r Hg. specialize (P2 a r Hg).
      simpl. lia. }
  all: destruct (c =? 91)%N.
  1: split; discriminate.
  2:{ destruct (parse_array_consuming IH s1) as [P1 P2].
      split; [exact P1|]. intros a r Hg. specialize (P2 a r Hg).
      simpl. lia. }
  all: repeat match goal with
         | |- context [if starts_with ?p ?s then _ else _] =>
             let E := fresh "E" in
             destruct (starts_with p s) eqn:E;
             [ split; [discriminate|];
               intros a r [= _ <-];
               vm_compute in E;
               repeat match type of E with
                 | context [match ?l with _ => _ end] =>
                     destruct l; try discriminate E
                 end;
               rewrite ?length_skipn; simpl; lia |]
         end.
  all: apply match_number_consuming.
Qed.

(** The scanner, and so [raw_decode], is never stuck. *)
Lemma scan_once_never_stuck (depth : nat) (s : pystr) :
  scan_once depth s <> Stuck.
Proof. apply scan_once_consuming. Qed.

(** A decoded value ends after at least one character, within the text. *)
Lemma raw_decode_index (s : pystr) (v : value) (idx : nat) :
  PyJson.raw_decode s = Decoded v idx -> 0 < idx <= List.length s.
Proof.
  unfold PyJson.raw_decode.
  destruct (scan_once_consuming recursion_limit s) as [_ H].
  destruct (scan_once recursion_limit s) as [a r| | | |]; try discriminate.
  intros [= _ <-]. specialize (H a r eq_refl). lia.
Qed.
End LoopCounts.

(** * Further properties *)

(** ** Reports and the history *)

Section ReportFacts.
Context {B : Builtins}.

(** Whether a report is answered does not depend on the globals. *)
Lemma answered_in_any_state (g : globals) (rq : request) :
  (answered rq = true ->
   exists rec,
     mt4_webhook g rq
     = (Returns (Text (wire_body g) 200 text_plain), recorded g rec)
     /\ body_raw rec = data rq)
  /\ (answered rq = false -> exists e, mt4_webhook g rq = (Escapes e, g)).
Proof.
  unfold answered, mt4_webhook, wire_body, recorded.
  destruct (raw_decode (strip (data rq))) as [obj idx|e].
  - destruct (headline obj "account") as [e1|v1];
      [split; [discriminate|eauto]|].
    destruct (headline obj "server") as [e2|v2];
      [split; [discriminate|eauto]|].
    destruct (headline obj "balance") as [e3|v3];
      [split; [discriminate|eauto]|].
    destruct (headline obj "equity") as [e4|v4];
      [split; [discriminate|eauto]|].
    destruct (headline obj "floating_pnl") as [e5|v5];
      [split; [discriminate|eauto]|].
    split; [|discriminate]. intros _.
    destruct (map format_command (commands g)); eauto.
  - split; [|destruct e; discriminate]. intros _.
    destruct e; simpl; destruct (map format_command (commands g)); eauto.
Qed.

Lemma firstn_app_firstn (A : Type) (a b : list A) :
  forall n k, n <= k -> firstn n (a ++ firstn k b) = firstn n (a ++ b).
Proof.
  induction a as [|x a IH]; intros n k Hk; simpl.
  - rewrite firstn_firstn. f_equal. lia.
  - destruct n as [|n]; [reflexivity|]. simpl. f_equal.
    apply IH. lia.
Qed.

(** The history and the answered reports, for runs from any state whose
    history is within its bound. *)
Lemma history_of_run_from (cs : list call) :
  forall g,
    List.length (history g) <= MAX_HISTORY ->
    map body_raw (history (run g cs))
    = firstn MAX_HISTORY
        (rev (map data (reports cs)) ++ map body_raw (history g)).
Proof.
  induction cs as [|c cs IH]; intros g Hg.
  - unfold run, reports. cbn [fold_left flat_map map rev app].
    rewrite firstn_all2; [reflexivity|]. now rewrite length_map.
  - change (run g (c :: cs)) with (run (snd (handle g c)) cs).
    destruct c as [rq|rq|index|].
    + simpl handle. simpl reports.
      destruct (answered_in_any_state g rq) as [Hyes Hno].
      destruct (answered rq).
      * destruct (Hyes eq_refl) as (rec & -> & Hbody).
        destruct (@recorded_history g rec Hg) as [Hh Hl].
        rewrite IH by exact Hl. simpl snd. rewrite Hh.
        rewrite <- firstn_map. cbn [map]. rewrite Hbody.
        rewrite firstn_app_firstn by lia.
        cbn [app map rev]. now rewrite <- app_assoc.
      * destruct (Hno eq_refl) as (e & ->). cbn [snd flat_map app].
        now apply IH.
    + simpl handle. simpl reports.
      destruct (send_command_cases g rq) as [->|(cmd & -> & _)];
        simpl snd; rewrite IH; solve [reflexivity | exact Hg].
    + simpl handle. simpl reports.
      rewrite ?delete_command_route_globals. unfold delete_command.
      destruct (_ && _)%bool; simpl snd; rewrite IH;
        solve [reflexivity | exact Hg].
    + simpl handle. simpl reports. unfold clear_commands. simpl snd.
      rewrite IH; solve [reflexivity | exact Hg].
Qed.

(** X1: in every run since the start of the process, whatever the calls,
    the history holds the raw bodies of the answered reports, the newest at
    its left end, and only the last [MAX_HISTORY] of them: its length is the
    smaller of their number and [MAX_HISTORY].  Reports whose handler
    raised and the calls of the operator leave no trace in it. *)
Theorem history_of_run (cs : list call) :
  map body_raw (history (run startup cs))
  = firstn MAX_HISTORY (rev (map data (reports cs)))
  /\ List.length (history (run startup cs))
     = Nat.min (List.length (reports cs)) MAX_HISTORY.
Proof.
  assert (H : map body_raw (history (run startup cs))
              = firstn MAX_HISTORY (rev (map data (reports cs)))).
  { rewrite history_of_run_from by (simpl; lia).
    cbn [history startup map]. now rewrite app_nil_r. }
  split; [exact H|].
  apply (f_equal (@List.length pystr)) in H.
  rewrite length_map in H. rewrite H.
  rewrite length_firstn, length_rev, length_map. lia.
Qed.
End ReportFacts.

(** ** The queue over a run *)

Section QueueFacts.
Context {B : Builtins}.

Lemma pop_firstn_skipn (A : Type) (l : list A) :
  forall i, pop l i = firstn i l ++ skipn (S i) l.
Proof.
  induction l as [|x l IH]; intros [|i]; simpl; try reflexivity.
  f_equal. apply IH.
Qed.




Lemma sorted_snoc (l : list nat) (x : nat) :
  StronglySorted lt l -> Forall (fun y => y < x) l ->
  StronglySorted lt (l ++ [x]).
Proof.
  induction 1 as [|y l Hs IH Hy]; intros Hx; simpl.
  - repeat constructor.
  - inversion Hx as [|? ? Hyx Hl]; subst. constructor.
    + now apply IH.
    + apply Forall_app. split; [exact Hy|]. now repeat constructor.
Qed.

Lemma pop_incl (A : Type) (l : list A) :
  forall i x, In x (pop l i) -> In x l.
Proof.
  induction l as [|y l IH]; intros [|i] x; simpl; auto.
  intros [->|H]; [now left|]. right. now apply (IH i).
Qed.

Lemma sorted_pop (l : list nat) :
  forall i, StronglySorted lt l -> StronglySorted lt (pop l i).
Proof.
  induction l as [|y l IH]; intros [|i] Hs; simpl; auto.
  - now inversion Hs.
  - inversion Hs as [|? ? Hl Hy]; subst. constructor.
    + now apply IH.
    + apply Forall_forall. intros x Hx.
      rewrite Forall_forall in Hy. apply Hy. now apply (pop_incl l i).
Qed.

Lemma map_pop (A C : Type) (f : A -> C) (l : list A) :
  forall i, map f (pop l i) = pop (map f l) i.
Proof.
  induction l as [|y l IH]; intros [|i]; simpl; try reflexivity.
  f_equal. apply IH.
Qed.

Lemma handle_keeps_order (g : globals) (c : call) :
  queue_in_order g -> queue_in_order (snd (handle g c)).
Proof.
  unfold queue_in_order. intros [Hs Hb].
  destruct c as [rq|rq|index|]; simpl.
  - destruct (mt4_webhook_cases g rq) as [[e ->]|(rec & -> & _)]; simpl.
    + now split.
    + split; constructor.
  - destruct (send_command_cases g rq) as [->|(cmd & -> & Hid)]; simpl.
    + now split.
    + split.
      * rewrite map_app. simpl. apply sorted_snoc; [exact Hs|].
        rewrite Hid. rewrite Forall_forall in *. intros y Hy.
        apply in_map_iff in Hy. destruct Hy as (c0 & <- & Hc0).
        now apply Hb.
      * apply Forall_app. split.
        -- rewrite Forall_forall in *. intros c0 Hc0.
           specialize (Hb c0 Hc0). lia.
        -- constructor; [rewrite Hid; lia|constructor].
  - rewrite ?delete_command_route_globals.
    unfold delete_command.
    destruct (_ && _)%bool; simpl; [|now split].
    split.
    + rewrite map_pop. now apply sorted_pop.
    + rewrite Forall_forall in *. intros c0 Hc0. apply Hb.
      now apply (pop_incl _ (Z.to_nat index)).
  - split; constructor.
Qed.

(** Calls handled one after the other keep the queue in the order of the
    ids. *)
Lemma run_keeps_order (cs : list call) :
  forall g, queue_in_order g -> queue_in_order (run g cs).
Proof.
  induction cs as [|c cs IH]; intros g Hg; [exact Hg|].
  apply (IH (snd (handle g c))). now apply handle_keeps_order.
Qed.
End QueueFacts.

(** ** What the validation lets in *)

Section ValidationFacts.
Context {B : Builtins}.

(** Either the request is turned away, or one command is appended that
    carries the counter and the fields as they were read. *)
Lemma send_command_dichotomy (g : globals) (rq : request) :
  rejected rq
  \/ exists v,
       float_of_str (field rq "volume") = Some v
       /\ str_upper (field rq "symbol") <> []
       /\ (str_upper (field rq "direction") = lit "BUY"
           \/ str_upper (field rq "direction") = lit "SELL")
       /\ send_command g rq
          = (to_index,
             {| history := history g;
                commands :=
                  commands g
                    ++ [{| id := cmd_counter g;
                           symbol := str_upper (field rq "symbol");
                           direction := str_upper (field rq "direction");
                           volume := v;
                           sl := optional_number (field rq "sl");
                           tp := optional_number (field rq "tp");
                           timestamp := now rq (lit "%H:%M:%S") |}];
                cmd_counter := S (cmd_counter g) |}).
Proof.
  unfold rejected, send_command, optional_number, field.
  set (symbol := str_upper (strip (form_get (form rq) (lit "symbol")))).
  set (direction := str_upper (strip (form_get (form rq) (lit "direction")))).
  set (volume := strip (form_get (form rq) (lit "volume"))).
  set (sl := strip (form_get (form rq) (lit "sl"))).
  set (tp := strip (form_get (form rq) (lit "tp"))).
  destruct (pystr_eqb symbol []) eqn:Es.
  { left. left. now apply pystr_eqb_eq. }
  cbn [existsb orb].
  destruct (pystr_eqb direction (lit "BUY")) eqn:Eb;
    destruct (pystr_eqb direction (lit "SELL")) eqn:El;
    cbn [orb negb].
  4:{ left. right. left. split; intros H; apply pystr_eqb_eq in H;
        congruence. }
  all: destruct (pystr_eqb volume []) eqn:Ev;
    [ left; do 2 right; left; now apply pystr_eqb_eq |].
  all: destruct (float_of_str volume) as [v|] eqn:Ef;
    [| left; do 3 right; left; reflexivity ].
  all: assert (Hsym : symbol <> [])
    by (intros H; apply pystr_eqb_eq in H; congruence).
  all: assert (Hdir : direction = lit "BUY" \/ direction = lit "SELL")
    by (first [ left; now apply pystr_eqb_eq
              | right; now apply pystr_eqb_eq ]).
  all: destruct sl as [|c1 sl1] eqn:Esl;
    [| destruct (float_of_str (c1 :: sl1)) eqn:Efsl;
       [| left; do 4 right; left; split; [discriminate|reflexivity] ] ].
  all: destruct tp as [|c2 tp1] eqn:Etp;
    [| destruct (float_of_str (c2 :: tp1)) eqn:Eftp;
       [| left; do 5 right; split; [discriminate|reflexivity] ] ].
  all: right; exists v; cbn [option_map]; repeat split; auto.
Qed.

(** X4: the validation is exactly the six checks: [send_command] leaves
    the globals as they were if and only if the symbol is empty, the
    direction is neither [BUY] nor [SELL], the volume is empty or not a
    number, or a stop loss or take profit is given and is not a number. *)
Theorem unchanged_iff_rejected (g : globals) (rq : request) :
  send_command g rq = (to_index, g) <-> rejected rq.
Proof.
  split; [|apply send_command_rejected].
  intros Hsame.
  destruct (send_command_dichotomy g rq) as [Hr|(v & _ & _ & _ & Hacc)];
    [exact Hr|].
  rewrite Hacc in Hsame.
  apply (f_equal (fun p => cmd_counter (snd p))) in Hsame.
  simpl in Hsame. lia.
Qed.

(** X5: a request that is not turned away appends exactly one command: its
    id is the counter, which then grows by one; its symbol and direction
    are the trimmed fields in capitals; its numbers are [float] of the
    trimmed fields, a missing stop loss or take profit being [None]; the
    history is not touched. *)
Theorem accepted_command (g : globals) (rq : request) :
  ~ rejected rq ->
  exists v,
    float_of_str (field rq "volume") = Some v
    /\ send_command g rq
       = (to_index,
          {| history := history g;
             commands :=
               commands g
                 ++ [{| id := cmd_counter g;
                        symbol := str_upper (field rq "symbol");
                        direction := str_upper (field rq "direction");
                        volume := v;
                        sl := optional_number (field rq "sl");
                        tp := optional_number (field rq "tp");
                        timestamp := now rq (lit "%H:%M:%S") |}];
             cmd_counter := S (cmd_counter g) |}).
Proof.
  intros Hn.
  destruct (send_command_dichotomy g rq) as [Hr|(v & Hv & _ & _ & Hacc)];
    [contradiction|]. eauto.
Qed.

Lemma handle_keeps_well_formed (g : globals) (c : call) :
  Forall well_formed (commands g) ->
  Forall well_formed (commands (snd (handle g c))).
Proof.
  intros Hg. destruct c as [rq|rq|index|]; simpl.
  - destruct (mt4_webhook_cases g rq) as [[e ->]|(rec & -> & _)]; simpl;
      [exact Hg|constructor].
  - destruct (send_command_dichotomy g rq)
      as [Hr|(v & _ & Hs & Hd & ->)].
    + now rewrite (send_command_rejected g Hr).
    + simpl. apply Forall_app. split; [exact Hg|].
      constructor; [|constructor]. split; assumption.
  - rewrite ?delete_command_route_globals.
    unfold delete_command.
    destruct (_ && _)%bool; simpl; [|exact Hg].
    rewrite Forall_forall in *. intros c0 Hc0. apply Hg.
    now apply (pop_incl _ (Z.to_nat index)).
  - constructor.
Qed.

(** X6: at every moment of every run since the start of the process, every
    pending command has a symbol that is not empty and the direction [BUY]
    or [SELL], whatever was posted. *)
Theorem queue_well_formed (cs : list call) :
  Forall well_formed (commands (run startup cs)).
Proof.
  assert (H : forall g, Forall well_formed (commands g) ->
                        Forall well_formed (commands (run g cs))).
  { induction cs as [|c cs IH]; intros g Hg; [exact Hg|].
    apply (IH (snd (handle g c))). now apply handle_keeps_well_formed. }
  apply (H startup). constructor.
Qed.
End ValidationFacts.

Lemma accepted_command_witness :
  let rq := submit [("symbol", " eurusd "); ("direction", "sell");
                    ("volume", "0.5"); ("tp", "1.25")]%string in
  ~ rejected rq
  /\ exists v,
       float_of_str (field rq "volume") = Some v
       /\ send_command one_command rq
          = (to_index,
             {| history := history one_command;
                commands :=
                  commands one_command
                    ++ [{| id := cmd_counter one_command;
                           symbol := str_upper (field rq "symbol");
                           direction := str_upper (field rq "direction");
                           volume := v;
                           sl := optional_number (field rq "sl");
                           tp := optional_number (field rq "tp");
                           timestamp := now rq (lit "%H:%M:%S") |}];
                cmd_counter := S (cmd_counter one_command) |}).
Proof.
  intros rq.
  assert (Hn : ~ rejected rq).
  { intros [H|[[_ H]|[H|[H|[[H _]|[_ H]]]]]]; vm_compute in H;
      try discriminate H; apply H; reflexivity. }
  split; [exact Hn|].
  exact (@accepted_command cpython one_command rq Hn).
Defined.

(** ** Deletion in range *)

(** X7: for a position inside the queue, [delete_command] takes out the
    command at that position and nothing else: the commands before and
    after it keep their order, the queue is one shorter, and history and
    counter are as they were. *)
Theorem delete_in_range (g : globals) (index : Z) :
  (0 <= index < Z.of_nat (List.length (commands g)))%Z ->
  delete_command g index
  = (to_index,
     {| history := history g;
        commands := firstn (Z.to_nat index) (commands g)
                      ++ skipn (S (Z.to_nat index)) (commands g);
        cmd_counter := cmd_counter g |})
  /\ S (List.length (commands (snd (delete_command g index))))
     = List.length (commands g).
Proof.
  intros [H0 H1]. unfold delete_command.
  destruct ((0 <=? index) && (index <? _))%Z eqn:E.
  - rewrite pop_firstn_skipn. split; [reflexivity|]. cbn [snd commands].
    rewrite length_app, length_firstn, length_skipn. lia.
  - apply andb_false_iff in E. destruct E as [E|E].
    + apply Z.leb_gt in E. lia.
    + apply Z.ltb_ge in E. lia.
Qed.

Lemma delete_in_range_witness :
  (0 <= 0 < Z.of_nat (List.length (commands one_command)))%Z
  /\ delete_command one_command 0
     = (to_index,
        {| history := history one_command;
           commands := firstn (Z.to_nat 0) (commands one_command)
                         ++ skipn (S (Z.to_nat 0)) (commands one_command);
           cmd_counter := cmd_counter one_command |})
  /\ S (List.length (commands (snd (delete_command one_command 0))))
     = List.length (commands one_command).
Proof.
  assert (H : (0 <= 0 < Z.of_nat (List.length (commands one_command)))%Z).
  { vm_compute. split; [discriminate|reflexivity]. }
  split; [exact H|]. exact (@delete_in_range one_command 0%Z H).
Defined.

(** ** What a record holds *)

Section RecordFacts.
Context {B : Builtins}.

Lemma headline_value (obj : value) (key : string) (v : value) :
  headline obj key = inr v ->
  v = match obj with
      | VDict d => dict_get d (lit key)
      | _ => VNone
      end.
Proof.
  unfold headline. destruct (truthy obj) eqn:E.
  - destruct obj; simpl; try discriminate. now intros [= <-].
  - intros [= <-]. destruct obj as [| | | | | |d]; try reflexivity.
    destruct d; [reflexivity|discriminate].
Qed.

(** X8: the record of an answered report keeps the body as it came, the
    caller's address, the time and the request line, whatever the parse
    gave; its five headline fields are the values under these keys of the
    parsed object, and [None] when the key is missing or the parsed value
    is not an object. *)
Theorem stored_record (g g' : globals) (rq : request) (r : response) :
  mt4_webhook g rq = (Returns r, g') ->
  exists rec,
    g' = recorded g rec
    /\ body_raw rec = data rq
    /\ ip rec = get_client_ip rq
    /\ received_at rec = now rq (lit "%Y-%m-%d %H:%M:%S")
    /\ method rec = req_method rq
    /\ path rec = req_path rq
    /\ (account rec, server rec, balance rec, equity rec, floating_pnl rec)
       = match parsed rec with
         | VDict d =>
             (dict_get d (lit "account"), dict_get d (lit "server"),
              dict_get d (lit "balance"), dict_get d (lit "equity"),
              dict_get d (lit "floating_pnl"))
         | _ => (VNone, VNone, VNone, VNone, VNone)
         end.
Proof.
  unfold mt4_webhook, recorded.
  destruct (raw_decode (strip (data rq))) as [obj idx|e].
  - destruct (headline obj "account") as [e1|v1] eqn:E1; [discriminate|].
    destruct (headline obj "server") as [e2|v2] eqn:E2; [discriminate|].
    destruct (headline obj "balance") as [e3|v3] eqn:E3; [discriminate|].
    destruct (headline obj "equity") as [e4|v4] eqn:E4; [discriminate|].
    destruct (headline obj "floating_pnl") as [e5|v5] eqn:E5;
      [discriminate|].
    apply headline_value in E1, E2, E3, E4, E5. subst.
    destruct (map format_command (commands g)); intros [= _ <-];
      eexists; (split; [reflexivity|]); cbn;
      (repeat (split; [reflexivity|])); now destruct obj.
  - destruct e; cbn; destruct (map format_command (commands g));
      intros [= _ <-]; eexists; (split; [reflexivity|]); cbn;
      repeat split; reflexivity.
Qed.

Lemma lstrip_head (s : pystr) (c : N) (r : pystr) :
  lstrip s = c :: r -> isspace c = false.
Proof.
  induction s as [|x s IH]; simpl; [discriminate|].
  destruct (isspace x) eqn:E; [exact IH|]. now intros [= <- _].
Qed.

Lemma lstrip_skipn (s : pystr) : exists k, lstrip s = skipn k s.
Proof.
  induction s as [|x s [k IH]]; simpl.
  - now exists 0.
  - destruct (isspace x); [now exists (S k)|now exists 0].
Qed.

(** What [strip] leaves does not begin with white space. *)
Lemma strip_head (s : pystr) (c : N) (r : pystr) :
  strip s = c :: r -> isspace c = false.
Proof.
  unfold strip. destruct (lstrip_skipn (rev (lstrip s))) as [k ->].
  rewrite skipn_rev, rev_involutive.
  destruct (lstrip s) as [|x a] eqn:E.
  - rewrite firstn_nil. discriminate.
  - destruct (List.length (x :: a) - k) as [|n]; [discriminate|].
    simpl. intros [= <- _]. exact (lstrip_head _ E).
Qed.

(** X9: trailing data is recorded only for a report that was parsed, and
    only when something other than white space follows the first value: it
    is never empty, begins with a character that is not white space, and
    is at most 200 characters long. *)
Theorem trailing_data_shape (g g' : globals) (rq : request) (r : response) :
  mt4_webhook g rq = (Returns r, g') ->
  exists rec,
    g' = recorded g rec
    /\ forall t,
         remaining_data rec = Some t ->
         parse_error rec = None
         /\ 1 <= List.length t <= 200
         /\ exists c rest, t = c :: rest /\ isspace c = false.
Proof.
  unfold mt4_webhook, recorded.
  destruct (raw_decode (strip (data rq))) as [obj idx|e].
  - destruct (headline obj "account"); [discriminate|].
    destruct (headline obj "server"); [discriminate|].
    destruct (headline obj "balance"); [discriminate|].
    destruct (headline obj "equity"); [discriminate|].
    destruct (headline obj "floating_pnl"); [discriminate|].
    assert (Hshape : forall t,
               match strip (skipn idx (strip (data rq))) with
               | [] => None
               | _ :: _ =>
                   Some (firstn 200 (strip (skipn idx (strip (data rq)))))
               end = Some t ->
               1 <= List.length t <= 200
               /\ exists c rest, t = c :: rest /\ isspace c = false).
    { intros t.
      destruct (strip (skipn idx (strip (data rq)))) as [|c rest] eqn:E;
        [discriminate|].
      intros H.
      replace t with (firstn 200 (c :: rest)) by congruence.
      rewrite length_firstn. split; [simpl List.length; lia|].
      rewrite firstn_cons. do 2 eexists. split; [reflexivity|].
      exact (strip_head _ E). }
    destruct (map format_command (commands g)); intros [= _ <-];
      eexists; (split; [reflexivity|]); cbn [remaining_data parse_error];
      intros t Ht; (split; [reflexivity|]); now apply Hshape.
  - destruct e; cbn; destruct (map format_command (commands g));
      intros [= _ <-]; eexists; (split; [reflexivity|]);
      cbn [remaining_data]; discriminate.
Qed.
End RecordFacts.

Lemma stored_record_witness :
  let rq := post (dq "{'account': 7, 'server': 'Demo', 'equity': null} x") in
  let g' := snd (mt4_webhook startup rq) in
  mt4_webhook startup rq = (Returns (Text (lit "NOCOMMAND") 200 text_plain), g')
  /\ exists rec,
       g' = recorded startup rec
       /\ body_raw rec = data rq
       /\ ip rec = get_client_ip rq
       /\ received_at rec = now rq (lit "%Y-%m-%d %H:%M:%S")
       /\ method rec = req_method rq
       /\ path rec = req_path rq
       /\ (account rec, server rec, balance rec, equity rec,
           floating_pnl rec)
          = match parsed rec with
            | VDict d =>
                (dict_get d (lit "account"), dict_get d (lit "server"),
                 dict_get d (lit "balance"), dict_get d (lit "equity"),
                 dict_get d (lit "floating_pnl"))
            | _ => (VNone, VNone, VNone, VNone, VNone)
            end.
Proof.
  intros rq g'.
  assert (H : mt4_webhook startup rq
              = (Returns (Text (lit "NOCOMMAND") 200 text_plain), g')).
  { vm_compute. reflexivity. }
  split; [exact H|].
  exact (@stored_record cpython startup g' rq _ H).
Defined.

Lemma trailing_data_shape_witness :
  let rq := post (dq "{'account': 7}   {'account': 8}  ") in
  let g' := snd (mt4_webhook startup rq) in
  mt4_webhook startup rq = (Returns (Text (lit "NOCOMMAND") 200 text_plain), g')
  /\ exists rec,
       g' = recorded startup rec
       /\ forall t,
            remaining_data rec = Some t ->
            parse_error rec = None
            /\ 1 <= List.length t <= 200
            /\ exists c rest, t = c :: rest /\ isspace c = false.
Proof.
  intros rq g'.
  assert (H : mt4_webhook startup rq
              = (Returns (Text (lit "NOCOMMAND") 200 text_plain), g')).
  { vm_compute. reflexivity. }
  split; [exact H|].
  exact (@trailing_data_shape cpython startup g' rq _ H).
Defined.

(** ** The detail view *)

Section DictFacts.

Lemma pystr_eqb_refl (a : pystr) : pystr_eqb a a = true.
Proof. now apply pystr_eqb_eq. Qed.

Lemma dict_set_same (d : list (pystr * value)) (k : pystr) (v : value) :
  dict_find (dict_set d k v) k = Some v.
Proof.
  induction d as [|[k0 w] d IH]; simpl.
  - now rewrite pystr_eqb_refl.
  - destruct (pystr_eqb k0 k) eqn:E; simpl; rewrite E; [reflexivity|exact IH].
Qed.

Lemma dict_set_other (d : list (pystr * value)) (k k' : pystr) (v : value) :
  k <> k' -> dict_find (dict_set d k v) k' = dict_find d k'.
Proof.
  intros Hk. induction d as [|[k0 w] d IH]; simpl.
  - now rewrite pystr_eqb_false.
  - destruct (pystr_eqb k0 k) eqn:E; simpl.
    + apply pystr_eqb_eq in E. subst k0.
      now rewrite !(pystr_eqb_false Hk).
    + destruct (pystr_eqb k0 k'); [reflexivity|exact IH].
Qed.

Lemma dict_get_find (d : list (pystr * value)) (k : pystr) :
  dict_get d k = match dict_find d k with
                 | Some v => v
                 | None => VNone
                 end.
Proof.
  induction d as [|[k0 w] d IH]; simpl; [reflexivity|].
  now destruct (pystr_eqb k0 k).
Qed.

Lemma dict_set_found (d : list (pystr * value)) (k : pystr) (v : value) :
  dict_find d k = Some v -> dict_set d k v = d.
Proof.
  induction d as [|[k0 w] d IH]; simpl; [discriminate|].
  destruct (pystr_eqb k0 k) eqn:E.
  - now intros [= ->].
  - intros H. now rewrite IH.
Qed.
End DictFacts.

Section DetailFacts.
Context {B : Builtins}.
Variable fromtimestamp : number -> option pystr.

Lemma open_time_keys : lit "open_time_str" <> lit "open_time".
Proof. intros H. vm_compute in H. discriminate H. Qed.

(** One more turn of the loop on a position that went through it changes
    nothing. *)
Lemma mark_position_again (pos pos' : value) :
  mark_position fromtimestamp pos = inr pos' ->
  mark_position fromtimestamp pos' = inr pos'.
Proof.
  destruct pos as [| | | |s|l|d]; simpl; try discriminate.
  - destruct (is_infix _ s); discriminate.
  - intros [= <-]. simpl. do 2 f_equal.
    rewrite !dict_get_find, (dict_set_other _ _ open_time_keys).
    apply dict_set_found. apply dict_set_same.
Qed.

Lemma mark_all_again (l : list value) :
  forall l' e,
    mark_all fromtimestamp l = (l', e) ->
    mark_all fromtimestamp l' = (l', e).
Proof.
  induction l as [|pos l IH]; simpl; intros l' e.
  - now intros [= <- <-].
  - destruct (mark_position fromtimestamp pos) as [err|pos'] eqn:E.
    + intros [= <- <-]. simpl. now rewrite E.
    + destruct (mark_all fromtimestamp l) as [rest' e0] eqn:El.
      intros [= <- <-]. simpl.
      rewrite (mark_position_again _ E), (IH _ _ eq_refl). reflexivity.
Qed.

Lemma mark_positions_again (p p' : value) (e : option raised) :
  mark_positions fromtimestamp p = (p', e) ->
  mark_positions fromtimestamp p' = (p', e).
Proof.
  destruct p as [| | | |s|l|d]; simpl; try (intros [= <- <-]; reflexivity).
  destruct (mark_all fromtimestamp l) as [l' e0] eqn:El.
  intros [= <- <-]. simpl. now rewrite (mark_all_again _ El).
Qed.

Lemma with_parsed_same (r : record) : with_parsed r (parsed r) = r.
Proof. now destruct r. Qed.

Lemma positions_key (key : string) :
  In key ["account"; "server"; "ts"; "balance"; "equity"; "margin";
          "free_margin"; "margin_level"; "floating_pnl";
          "day_start_equity"; "daily_pnl"; "daily_return";
          "metrics"]%string ->
  lit "positions" <> lit key.
Proof.
  intros H Heq. repeat (destruct H as [<-|H]; [vm_compute in Heq;
                                                discriminate Heq|]).
  destruct H.
Qed.

(** The record the extraction leaves, read again, gives the same result
    and is left as it is. *)
Lemma extract_again (r r' : record) (res : raised + option details) :
  extract_latest_details fromtimestamp (Some r) = (res, Some r') ->
  extract_latest_details fromtimestamp (Some r') = (res, Some r').
Proof.
  unfold extract_latest_details.
  destruct (parse_error r) as [[|c e]|] eqn:Ee.
  2:{ intros [= <- <-]. now rewrite Ee. }
  all: destruct (parsed r) as [| | | | | |d] eqn:Ep;
    try (intros [= <- <-]; rewrite Ee, Ep; reflexivity).
  all: destruct (dict_find d (lit "positions")) as [p|] eqn:Epos.
  2,4: destruct (mark_positions fromtimestamp (VList [])) as [p' st] eqn:Em;
    intros H;
    assert (Hr : r' = r)
      by (destruct st; [|destruct (match dict_find d (lit "metrics") with
                                   | Some m => m | None => VDict [] end)];
          congruence);
    subst r'; rewrite Ee, Ep, Epos, Em; exact H.
  all: destruct (mark_positions fromtimestamp p) as [p' st] eqn:Em;
    intros H;
    assert (Hr : r' = with_parsed r (VDict (dict_set d (lit "positions") p')))
      by (destruct st; [|destruct (match dict_find d (lit "metrics") with
                                   | Some m => m | None => VDict [] end)];
          congruence);
    subst r'; cbn [parse_error parsed with_parsed];
    rewrite Ee, dict_set_same, (mark_positions_again _ Em);
    rewrite (dict_set_found _ _ (dict_set_same d (lit "positions") p'));
    rewrite (dict_set_other _ _ (@positions_key "metrics"
                                   ltac:(simpl; tauto)));
    rewrite <- H; clear H;
    (destruct st; [reflexivity|]);
    (destruct (match dict_find d (lit "metrics") with
               | Some m => m | None => VDict [] end);
     try reflexivity);
    cbn [map]; rewrite !dict_get_find;
    rewrite !(fun key H => dict_set_other d p' (@positions_key key H))
      by (simpl; tauto);
    reflexivity.
Qed.

(** The extraction hands back a record, the one it was given but for the
    parsed value. *)
Lemma extract_shown (r : record) :
  exists res r',
    extract_latest_details fromtimestamp (Some r) = (res, Some r')
    /\ r' = with_parsed r (parsed r').
Proof.
  unfold extract_latest_details.
  destruct (parse_error r) as [[|c e]|];
    try (destruct (parsed r) as [| | | | | |d] eqn:Ep);
    try (do 2 eexists; split; [reflexivity|];
         symmetry; apply with_parsed_same).
  all: destruct (mark_positions fromtimestamp
                   match dict_find d (lit "positions") with
                   | Some p => p
                   | None => VList []
                   end) as [p' st];
    destruct (dict_find d (lit "positions"));
    destruct st;
    try (do 2 eexists; split; [reflexivity|];
         first [ symmetry; apply with_parsed_same | reflexivity ]);
    destruct (match dict_find d (lit "metrics") with
              | Some m => m | None => VDict [] end);
    do 2 eexists; split; try reflexivity;
    first [ symmetry; apply with_parsed_same | reflexivity ].
Qed.

Lemma latest_record_last (g : globals) (r : record) :
  latest_record g = Some r -> exists h, history g = h ++ [r].
Proof.
  unfold latest_record, hist_list.
  destruct (rev (history g)) as [|x t] eqn:E; [discriminate|].
  intros [= ->]. exists (rev t).
  rewrite <- (rev_involutive (history g)), E. reflexivity.
Qed.

Lemma latest_record_snoc (h : list record) (r : record) (q : list command)
      (n : nat) :
  latest_record {| history := h ++ [r]; commands := q; cmd_counter := n |}
  = Some r.
Proof. unfold latest_record, hist_list. simpl. now rewrite rev_unit. Qed.

Lemma replace_shown_snoc (h : list record) (r r' : record) :
  replace_shown (h ++ [r]) r' = h ++ [r'].
Proof.
  unfold replace_shown. destruct (h ++ [r]) eqn:E.
  - now destruct h.
  - rewrite <- E. now rewrite removelast_last.
Qed.

(** The two ways [index] goes: there is no record, or the record at the
    right end of the history is read and left as the extraction leaves
    it. *)
Lemma index_view_cases (g : globals) :
  (history g = []
   /\ index_view fromtimestamp g
      = (inr {| dash_history := [];
                dash_latest := None;
                dash_latest_raw := None;
                dash_commands := commands g |},
         g))
  \/ exists h r r' res,
       history g = h ++ [r]
       /\ extract_latest_details fromtimestamp (Some r) = (res, Some r')
       /\ r' = with_parsed r (parsed r')
       /\ index_view fromtimestamp g
          = (match res with
             | inl e => inl e
             | inr d =>
                 inr {| dash_history := r' :: rev h;
                        dash_latest := d;
                        dash_latest_raw := Some r';
                        dash_commands := commands g |}
             end,
             {| history := h ++ [r'];
                commands := commands g;
                cmd_counter := cmd_counter g |}).
Proof.
  destruct (latest_record g) as [r|] eqn:El.
  - right. destruct (latest_record_last _ El) as [h Hh].
    destruct (extract_shown r) as (res & r' & He & Hr).
    exists h, r, r', res. repeat split; try assumption.
    unfold index_view. rewrite El, He, Hh, replace_shown_snoc.
    destruct res; [reflexivity|]. now rewrite rev_unit.
  - left. unfold latest_record, hist_list in El.
    destruct (rev (history g)) as [|x t] eqn:E; [|discriminate].
    assert (Hh : history g = []).
    { rewrite <- (rev_involutive (history g)), E. reflexivity. }
    split; [exact Hh|].
    unfold index_view, latest_record, hist_list. rewrite E. simpl.
    rewrite Hh. destruct g; simpl in *. now subst.
Qed.

(** X10: [index] never touches the queue or the counter and never adds,
    drops or reorders a record; the only thing it may change is the parsed
    value of the one record it shows, the one at the right end of the
    history. *)
Theorem index_view_frame (g : globals) :
  let g' := snd (index_view fromtimestamp g) in
  commands g' = commands g
  /\ cmd_counter g' = cmd_counter g
  /\ removelast (history g') = removelast (history g)
  /\ map (fun r => with_parsed r VNone) (history g')
     = map (fun r => with_parsed r VNone) (history g).
Proof.
  destruct (index_view_cases g)
    as [[_ ->]|(h & r & r' & res & Hh & _ & Hr & ->)]; simpl.
  - repeat split.
  - rewrite Hh, !removelast_last, !map_app. simpl.
    repeat split. rewrite Hr. reflexivity.
Qed.

(** X11: what [index] writes it writes once: a second call right after
    the first returns the same values and leaves the same globals. *)
Theorem index_view_idempotent (g : globals) :
  index_view fromtimestamp (snd (index_view fromtimestamp g))
  = index_view fromtimestamp g.
Proof.
  destruct (index_view_cases g)
    as [[Hh H]|(h & r & r' & res & Hh & He & Hr & H)].
  - rewrite H. simpl. exact H.
  - rewrite H. simpl snd.
    unfold index_view at 1.
    rewrite latest_record_snoc, (extract_again _ He).
    cbn [history commands cmd_counter]. rewrite replace_shown_snoc.
    destruct res; [reflexivity|]. now rewrite rev_unit.
Qed.
End DetailFacts.

(** ** Reports on the dashboard *)

Section DashboardFacts.
Context {B : Builtins}.
Variable fromtimestamp : number -> option pystr.

Lemma first_record (g : globals) (rec : record) :
  history g = [] ->
  recorded g rec
  = {| history := [] ++ [rec]; commands := []; cmd_counter := cmd_counter g |}.
Proof. unfold recorded. now intros ->. Qed.

(** The records of a run: one for each answered report, the newest first,
    before those the run started with. *)
Lemma records_of_run (cs : list call) :
  forall g,
    List.length (history g) <= MAX_HISTORY ->
    exists recs,
      List.length recs = List.length (reports cs)
      /\ history (run g cs) = firstn MAX_HISTORY (recs ++ history g).
Proof.
  induction cs as [|c cs IH]; intros g Hg.
  - exists []. split; [reflexivity|].
    unfold run. cbn [fold_left app]. now rewrite firstn_all2.
  - change (run g (c :: cs)) with (run (snd (handle g c)) cs).
    destruct c as [rq|rq|index|].
    + simpl handle. simpl reports.
      destruct (answered_in_any_state g rq) as [Hyes Hno].
      destruct (answered rq).
      * destruct (Hyes eq_refl) as (rec & -> & _).
        destruct (@recorded_history g rec Hg) as [Hh Hl].
        destruct (IH _ Hl) as (recs & Hn & Hr).
        exists (recs ++ [rec]). split.
        -- rewrite length_app. simpl. lia.
        -- simpl snd. rewrite Hr, Hh.
           rewrite firstn_app_firstn by lia.
           now rewrite <- app_assoc.
      * destruct (Hno eq_refl) as (e & ->). cbn [snd app].
        now apply IH.
    + simpl handle. simpl reports.
      destruct (send_command_cases g rq) as [->|(cmd & -> & _)];
        simpl snd.
      * exact (IH g Hg).
      * exact (IH {| history := history g;
                     commands := commands g ++ [cmd];
                     cmd_counter := S (cmd_counter g) |} Hg).
    + simpl handle. simpl reports.
      rewrite ?delete_command_route_globals. unfold delete_command.
      destruct (_ && _)%bool; simpl snd.
      * exact (IH {| history := history g;
                     commands := pop (commands g) (Z.to_nat index);
                     cmd_counter := cmd_counter g |} Hg).
      * exact (IH g Hg).
    + simpl handle. simpl reports. unfold clear_commands. simpl snd.
      exact (IH {| history := history g; commands := [];
                   cmd_counter := cmd_counter g |} Hg).
Qed.

(** After fewer than [MAX_HISTORY] further answered reports the record at
    the right end of the history is still the one that was there. *)
Lemma shown_record_stays (h : list record) (r : record) (q : list command)
      (n : nat) (cs : list call) :
  S (List.length h) <= MAX_HISTORY ->
  List.length (reports cs) + S (List.length h) <= MAX_HISTORY ->
  exists h',
    history (run {| history := h ++ [r]; commands := q; cmd_counter := n |}
               cs)
    = h' ++ [r].
Proof.
  intros Hh Hc.
  destruct (@records_of_run cs
              {| history := h ++ [r]; commands := q; cmd_counter := n |})
    as (recs & Hn & Hr).
  { simpl. rewrite length_app. simpl. lia. }
  exists (recs ++ h). rewrite Hr. cbn [history].
  rewrite firstn_all2; [now rewrite app_assoc|].
  rewrite !length_app. simpl. lia.
Qed.

Lemma raised_record (g : globals) (rq : request) (e : exn) :
  raw_decode (strip (data rq)) = PyJson.Raises e ->
  exists rec c reason,
    mt4_webhook g rq
    = (Returns (Text (wire_body g) 200 text_plain), recorded g rec)
    /\ parse_error rec = Some (c :: reason)
    /\ remaining_data rec = None.
Proof.
  intros Hdec. unfold mt4_webhook, wire_body, recorded. rewrite Hdec.
  destruct e.
  1: destruct (str_of_exn (JSONDecodeError msg doc pos)) as [|c reason] eqn:E;
    [now apply str_of_exn_nonempty in E|].
  all: cbn; try rewrite E;
    destruct (map format_command (commands g));
    do 3 eexists; (split; [reflexivity|]); cbn; split; reflexivity.
Qed.

(** X12: a report that could not be decoded never breaks the page: when
    it is the record shown, [index] raises nothing, changes nothing, and
    hands the template the reason after the words of line 54, the
    traceback, and a preview of the body. *)
Theorem failed_report_shown (g : globals) (rq : request) (e : exn) :
  history g = [] ->
  raw_decode (strip (data rq)) = PyJson.Raises e ->
  exists rec reason,
    snd (mt4_webhook g rq) = recorded g rec
    /\ parse_error rec = Some reason
    /\ index_view fromtimestamp (recorded g rec)
       = (inr {| dash_history := [rec];
                 dash_latest :=
                   Some (base_info rec
                           ++ [(lit "error", VStr (parse_failed ++ reason));
                               (lit "full_error",
                                str_or_none (parse_error_detail rec));
                               (lit "remaining_data", VNone)]);
                 dash_latest_raw := Some rec;
                 dash_commands := [] |},
          recorded g rec).
Proof.
  intros Hh Hdec.
  destruct (@raised_record g rq e Hdec) as (rec & c & reason & Hw & He & Hrem).
  exists rec, (c :: reason). rewrite Hw. repeat split; [exact He|].
  rewrite (@first_record g rec Hh).
  unfold index_view. rewrite latest_record_snoc.
  unfold extract_latest_details. rewrite He, Hrem.
  cbn [history commands cmd_counter]. now rewrite replace_shown_snoc.
Qed.

(** X13: the body [null] decodes, to [None], and is recorded without an
    error; the page nevertheless shows it as a parse failure, with the
    words of line 61 in the place of a reason. *)
Theorem null_report_shown_as_failure (g : globals) (rq : request)
        (idx : nat) :
  history g = [] ->
  raw_decode (strip (data rq)) = PyJson.Decoded VNone idx ->
  exists rec,
    mt4_webhook g rq
    = (Returns (Text (wire_body g) 200 text_plain), recorded g rec)
    /\ parse_error rec = None
    /\ index_view fromtimestamp (recorded g rec)
       = (inr {| dash_history := [rec];
                 dash_latest :=
                   Some (base_info rec
                           ++ [(lit "error", VStr parse_failed_no_detail)]);
                 dash_latest_raw := Some rec;
                 dash_commands := [] |},
          recorded g rec).
Proof.
  intros Hh Hdec.
  destruct (@falsy_or_dict_recorded B g rq VNone idx Hdec)
    as (rec & Hw & Hp & He); [now left|].
  exists rec. repeat split; [exact Hw|exact He|].
  rewrite (@first_record g rec Hh).
  unfold index_view. rewrite latest_record_snoc.
  unfold extract_latest_details. rewrite He, Hp.
  cbn [history commands cmd_counter]. now rewrite replace_shown_snoc.
Qed.

(** X14: a report that decodes to [false], [0], [0.0], the empty string
    or the empty list is answered with 200 and recorded; from then on,
    and as long as fewer than [MAX_HISTORY] further reports were
    answered, [index] raises [AttributeError], because the record it
    shows is the oldest one kept. *)
Theorem falsy_report_breaks_index (g : globals) (rq : request)
        (obj : value) (idx : nat) (cs : list call) :
  history g = [] ->
  raw_decode (strip (data rq)) = PyJson.Decoded obj idx ->
  truthy obj = false -> obj <> VNone -> (forall d, obj <> VDict d) ->
  S (List.length (reports cs)) <= MAX_HISTORY ->
  fst (mt4_webhook g rq) = Returns (Text (wire_body g) 200 text_plain)
  /\ fst (index_view fromtimestamp (run (snd (mt4_webhook g rq)) cs))
     = inl (no_get obj).
Proof.
  intros Hh Hdec Hf Hn Hd Hc.
  destruct (@falsy_or_dict_recorded B g rq obj idx Hdec)
    as (rec & Hw & Hp & He); [now left|].
  rewrite Hw. split; [reflexivity|]. simpl snd.
  rewrite (@first_record g rec Hh).
  destruct (@shown_record_stays [] rec [] (cmd_counter g) cs)
    as [h' Hh']; [unfold MAX_HISTORY; simpl; lia|simpl; lia|].
  destruct (index_view_cases fromtimestamp
              (run {| history := [] ++ [rec]; commands := [];
                      cmd_counter := cmd_counter g |} cs))
    as [[Hnil _]|(h & r & r' & res & Hr & Hx & _ & ->)].
  - rewrite Hh' in Hnil. now destruct h'.
  - rewrite Hh' in Hr. apply app_inj_tail in Hr. destruct Hr as [_ <-].
    unfold extract_latest_details in Hx. rewrite He, Hp in Hx.
    destruct obj; try congruence;
      try (injection Hx as <- _; reflexivity).
Qed.
End DashboardFacts.

Lemma failed_report_shown_witness :
  let rq := post (lit "not json") in
  let e := JSONDecodeError (lit "Expecting value") (lit "not json") 0 in
  history startup = []
  /\ raw_decode (strip (data rq)) = PyJson.Raises e
  /\ exists rec reason,
       snd (mt4_webhook startup rq) = recorded startup rec
       /\ parse_error rec = Some reason
       /\ index_view (fun _ => None) (recorded startup rec)
          = (inr {| dash_history := [rec];
                    dash_latest :=
                      Some (base_info rec
                              ++ [(lit "error",
                                   VStr (parse_failed ++ reason));
                                  (lit "full_error",
                                   str_or_none (parse_error_detail rec));
                                  (lit "remaining_data", VNone)]);
                    dash_latest_raw := Some rec;
                    dash_commands := [] |},
             recorded startup rec).
Proof.
  intros rq e.
  assert (H1 : history startup = []) by reflexivity.
  assert (H2 : raw_decode (strip (data rq)) = PyJson.Raises e)
    by (vm_compute; reflexivity).
  split; [exact H1|]. split; [exact H2|].
  exact (@failed_report_shown cpython (fun _ => None) startup rq e H1 H2).
Defined.

Lemma null_report_shown_as_failure_witness :
  let rq := post (lit " null ") in
  history startup = []
  /\ raw_decode (strip (data rq)) = PyJson.Decoded VNone 4
  /\ exists rec,
       mt4_webhook startup rq
       = (Returns (Text (wire_body startup) 200 text_plain),
          recorded startup rec)
       /\ parse_error rec = None
       /\ index_view (fun _ => None) (recorded startup rec)
          = (inr {| dash_history := [rec];
                    dash_latest :=
                      Some (base_info rec
                              ++ [(lit "error",
                                   VStr parse_failed_no_detail)]);
                    dash_latest_raw := Some rec;
                    dash_commands := [] |},
             recorded startup rec).
Proof.
  intros rq.
  assert (H1 : history startup = []) by reflexivity.
  assert (H2 : raw_decode (strip (data rq)) = PyJson.Decoded VNone 4)
    by (vm_compute; reflexivity).
  split; [exact H1|]. split; [exact H2|].
  exact (@null_report_shown_as_failure cpython (fun _ => None) startup rq 4
           H1 H2).
Defined.

Lemma falsy_report_breaks_index_witness :
  let rq := post (lit "0") in
  let cs := [Echo (post (dq "{'account': 1}"));
             Send (submit [("symbol", "EURUSD"); ("direction", "BUY");
                           ("volume", "1")]%string);
             Echo (post (dq "{'account': 2}"))] in
  history startup = []
  /\ raw_decode (strip (data rq)) = PyJson.Decoded (VInt 0) 1
  /\ truthy (VInt 0) = false
  /\ VInt 0 <> VNone
  /\ (forall d, VInt 0 <> VDict d)
  /\ S (List.length (reports cs)) <= MAX_HISTORY
  /\ fst (mt4_webhook startup rq)
     = Returns (Text (wire_body startup) 200 text_plain)
  /\ fst (index_view (fun _ => None) (run (snd (mt4_webhook startup rq)) cs))
     = inl (no_get (VInt 0)).
Proof.
  intros rq cs.
  assert (H1 : history startup = []) by reflexivity.
  assert (H2 : raw_decode (strip (data rq)) = PyJson.Decoded (VInt 0) 1)
    by (vm_compute; reflexivity).
  assert (H3 : truthy (VInt 0) = false) by reflexivity.
  assert (H4 : VInt 0 <> VNone) by discriminate.
  assert (H5 : forall d, VInt 0 <> VDict d) by discriminate.
  assert (H6 : S (List.length (reports cs)) <= MAX_HISTORY)
    by (vm_compute; repeat constructor).
  repeat (split; [assumption|]).
  exact (@falsy_report_breaks_index cpython (fun _ => None) startup rq
           (VInt 0) 1 cs H1 H2 H3 H4 H5 H6).
Defined.

Section ShownFacts.
Context {B : Builtins}.
Variable fromtimestamp : number -> option pystr.

Lemma mark_all_dicts (l : list value) :
  Forall is_dict l ->
  exists l',
    mark_all fromtimestamp l = (l', None)
    /\ Forall2 (shown_as (open_time_str fromtimestamp)) l l'.
Proof.
  induction 1 as [|p l [d ->] _ (l' & Hm & Hf)].
  - exists []. split; [reflexivity|constructor].
  - eexists. simpl. rewrite Hm. split; [reflexivity|].
    constructor; [|exact Hf].
    exists d. eexists. repeat split.
    + apply dict_set_same.
    + intros k Hk. apply dict_set_other. congruence.
Qed.

Lemma extract_base (r : record) (det : details) (o : option record) :
  extract_latest_details fromtimestamp (Some r) = (inr (Some det), o) ->
  exists rest, det = base_info r ++ rest.
Proof.
  unfold extract_latest_details.
  destruct (parse_error r) as [[|c e]|].
  2:{ intros [= <- _]. eexists. reflexivity. }
  all: destruct (parsed r) as [| | | | | |d];
    try discriminate; try (intros [= <- _]; eexists; reflexivity).
  all: destruct (mark_positions fromtimestamp
                   match dict_find d (lit "positions") with
                   | Some p => p
                   | None => VList []
                   end) as [p' [e0|]];
    try discriminate;
    destruct (match dict_find d (lit "metrics") with
              | Some m => m | None => VDict [] end);
    try discriminate; intros [= <- _]; eexists; reflexivity.
Qed.

(** X15: for a record without a parse error whose parsed value is an
    object, whose positions, if it has any, are a list of objects and whose
    metrics, if it has any, are an object, [extract_latest_details] raises
    nothing and returns a dictionary in which each of the twelve copied
    fields is the value under its key, [None] when the key is missing, and
    each position has the key [open_time_str] (the date, the number itself
    when the date cannot be made, [N/A] when [open_time] is missing or not
    a number) and its other keys as they were.  This is about the values
    [index] hands to the template, not about what the template does with
    them afterwards. *)
Theorem well_shaped_report_details (r : record)
        (d : list (pystr * value)) (l : list value) :
  parse_error r = None ->
  parsed r = VDict d ->
  listed_positions d l -> Forall is_dict l -> metrics_ok d ->
  exists det l',
    fst (extract_latest_details fromtimestamp (Some r)) = inr (Some det)
    /\ (forall key, In key copied_keys ->
                    dict_find det (lit key) = Some (dict_get d (lit key)))
    /\ dict_find det (lit "positions") = Some (VList l')
    /\ Forall2 (shown_as (open_time_str fromtimestamp)) l l'.
Proof.
  intros He Hp Hpos Hd Hm.
  destruct (mark_all_dicts Hd) as (l' & Hmark & Hshown).
  unfold extract_latest_details. rewrite He, Hp.
  assert (Hmp : mark_positions fromtimestamp
                  match dict_find d (lit "positions") with
                  | Some p => p
                  | None => VList []
                  end = (VList l', None)).
  { destruct Hpos as [[-> ->]| ->]; simpl in *;
      [injection Hmark as <-; reflexivity|now rewrite Hmark]. }
  rewrite Hmp.
  assert (Hmet : exists m, match dict_find d (lit "metrics") with
                           | Some m => m
                           | None => VDict []
                           end = VDict m).
  { destruct Hm as [->|[m ->]]; eauto. }
  destruct Hmet as [m ->].
  do 2 eexists. split; [reflexivity|].
  split; [|split; [reflexivity|exact Hshown]].
  intros key Hk. unfold copied_keys in Hk.
  repeat (destruct Hk as [<-|Hk]; [reflexivity|]). destruct Hk.
Qed.

(** X16: the preview of the body that the page shows is the body of the
    shown record when that has at most 500 characters, and its first 500
    characters followed by three dots otherwise: never more than 503
    characters, however long the report was. *)
Theorem preview_bounded (g : globals) (dash : dashboard) (det : details) :
  fst (index_view fromtimestamp g) = inr dash ->
  dash_latest dash = Some det ->
  exists r p,
    latest_record g = Some r
    /\ dict_find det (lit "body_raw_preview") = Some (VStr p)
    /\ List.length p <= 503
    /\ firstn 500 p = firstn 500 (body_raw r)
    /\ (List.length (body_raw r) <= 500 -> p = body_raw r)
    /\ (500 < List.length (body_raw r) ->
        p = firstn 500 (body_raw r) ++ lit "...").
Proof.
  intros Hv Hd.
  destruct (index_view_cases fromtimestamp g)
    as [[_ H]|(h & r & r' & res & Hh & He & _ & H)];
    rewrite H in Hv; simpl in Hv.
  - injection Hv as <-. discriminate Hd.
  - destruct res as [e|[det'|]]; try discriminate.
    + injection Hv as <-. simpl in Hd. injection Hd as ->.
      destruct (@extract_base r det (Some r') He) as [rest ->].
      exists r. eexists. split.
      { unfold latest_record, hist_list. now rewrite Hh, rev_unit. }
      split; [reflexivity|].
      destruct (Nat.ltb 500 (List.length (body_raw r))) eqn:E.
      * apply Nat.ltb_lt in E.
        rewrite length_app, length_firstn. simpl List.length.
        repeat split; try lia.
        rewrite firstn_app, length_firstn, firstn_firstn.
        replace (500 - Nat.min 500 (List.length (body_raw r))) with 0
          by lia.
        now rewrite firstn_O, app_nil_r.
      * apply Nat.ltb_ge in E. rewrite app_nil_r.
        rewrite firstn_all2 by exact E.
        split; [lia|]. split; [now apply firstn_all2|].
        split; [reflexivity|]. intros. lia.
    + injection Hv as <-. discriminate Hd.
Qed.
End ShownFacts.

Lemma well_shaped_report_details_witness :
  let l := [VDict [(lit "ticket", VInt 1); (lit "open_time", VInt 5)];
            VDict [(lit "ticket", VInt 2)]] in
  let d := [(lit "account", VInt 7); (lit "positions", VList l);
            (lit "metrics", VDict [(lit "last_error", VStr (lit "none"))])] in
  let r := with_parsed blank_record (VDict d) in
  let ft := fun _ : number => Some (lit "1970-01-01 00:00:05") in
  parse_error r = None
  /\ parsed r = VDict d
  /\ listed_positions d l
  /\ Forall is_dict l
  /\ metrics_ok d
  /\ exists det l',
       fst (extract_latest_details ft (Some r)) = inr (Some det)
       /\ (forall key, In key copied_keys ->
                       dict_find det (lit key) = Some (dict_get d (lit key)))
       /\ dict_find det (lit "positions") = Some (VList l')
       /\ Forall2 (shown_as (open_time_str ft)) l l'.
Proof.
  intros l d r ft.
  assert (H2 : parse_error r = None) by reflexivity.
  assert (H3 : parsed r = VDict d) by reflexivity.
  assert (H4 : listed_positions d l) by (right; vm_compute; reflexivity).
  assert (H5 : Forall is_dict l)
    by (repeat constructor; eexists; reflexivity).
  assert (H6 : metrics_ok d)
    by (right; eexists; vm_compute; reflexivity).
  repeat (split; [assumption|]).
  exact (@well_shaped_report_details cpython ft r d l H2 H3 H4 H5 H6).
Defined.

Lemma preview_bounded_witness :
  let r := {| received_at := received_at blank_record;
              ip := None;
              method := method blank_record;
              path := path blank_record;
              headers := [];
              body_raw := repeat 120%N 700;
              parsed := VNone;
              parse_error := Some (lit "Expecting value");
              parse_error_detail := None;
              remaining_data := None;
              account := VNone;
              server := VNone;
              balance := VNone;
              equity := VNone;
              floating_pnl := VNone |} in
  let g := {| history := [blank_record; r]; commands := [];
              cmd_counter := 0 |} in
  let ft := fun _ : number => @None pystr in
  let det := base_info r
               ++ [(lit "error",
                    VStr (parse_failed ++ lit "Expecting value"));
                   (lit "full_error", VNone);
                   (lit "remaining_data", VNone)] in
  let dash := {| dash_history := [r; blank_record];
                 dash_latest := Some det;
                 dash_latest_raw := Some r;
                 dash_commands := [] |} in
  fst (index_view ft g) = inr dash
  /\ dash_latest dash = Some det
  /\ exists r0 p,
       latest_record g = Some r0
       /\ dict_find det (lit "body_raw_preview") = Some (VStr p)
       /\ List.length p <= 503
       /\ firstn 500 p = firstn 500 (body_raw r0)
       /\ (List.length (body_raw r0) <= 500 -> p = body_raw r0)
       /\ (500 < List.length (body_raw r0) ->
           p = firstn 500 (body_raw r0) ++ lit "...").
Proof.
  intros r g ft det dash.
  assert (H1 : fst (index_view ft g) = inr dash)
    by (vm_compute; reflexivity).
  assert (H2 : dash_latest dash = Some det) by reflexivity.
  split; [exact H1|]. split; [exact H2|].
  exact (@preview_bounded cpython ft g dash det H1 H2).
Defined.

(** * Handlers that overlap *)

Section Overlap.
Context {B : Builtins}.

(** ** The steps of a handler, taken together, are the handler *)

Lemma mt4_webhook_steps (g : globals) (rq : request) :
  mt4_webhook g rq
  = match build_record rq with
    | inr rec => mt4_webhook_drain (mt4_webhook_store g rec)
    | inl e => (Escapes e, g)
    end.
Proof.
  unfold mt4_webhook, build_record, mt4_webhook_drain, mt4_webhook_store.
  destruct (match raw_decode (strip (data rq)) with
            | PyJson.Decoded _ _ => _
            | PyJson.Raises _ => _
            end) as [[[parsed_json perr] detail] remaining].
  destruct (headline parsed_json "account"); [reflexivity|].
  destruct (headline parsed_json "server"); [reflexivity|].
  destruct (headline parsed_json "balance"); [reflexivity|].
  destruct (headline parsed_json "equity"); [reflexivity|].
  destruct (headline parsed_json "floating_pnl"); [reflexivity|].
  cbn [commands history cmd_counter].
  destruct (map format_command (commands g)); reflexivity.
Qed.

Lemma send_command_steps (g : globals) (rq : request) :
  send_command g rq
  = match send_command_build (cmd_counter g) rq with
    | Some cmd => (to_index, send_command_append g cmd)
    | None => (to_index, g)
    end.
Proof.
  unfold send_command, send_command_build, send_command_append.
  destruct (_ || _ || _); [reflexivity|].
  destruct (float_of_str _); [|reflexivity].
  destruct (match strip (form_get (form rq) (lit "sl")) with
            | [] => _ | _ :: _ => _ end); [|reflexivity].
  destruct (match strip (form_get (form rq) (lit "tp")) with
            | [] => _ | _ :: _ => _ end); reflexivity.
Qed.

(** A handler that runs alone takes its steps one after the other: two
    steps bring it to its end, with the answer and the globals of the
    handler as a whole. *)
Lemma handler_steps (g : globals) (c : call) :
  let '(t, g1) := step (Waiting c) g in
  step t g1 = (Done (fst (handle g c)), snd (handle g c)).
Proof.
  destruct c as [rq|rq|index|]; cbn [step handle].
  - rewrite mt4_webhook_steps.
    destruct (build_record rq) as [e|rec]; [reflexivity|].
    cbn [step]. now destruct (mt4_webhook_drain _).
  - rewrite send_command_steps.
    destruct (send_command_build (cmd_counter g) rq); reflexivity.
  - now destruct (delete_command_route g index).
  - reflexivity.
Qed.

Lemma nth_error_middle (A : Type) (l r : list A) (x : A) :
  nth_error (l ++ x :: r) (List.length l) = Some x.
Proof. induction l as [|y l IH]; [reflexivity|exact IH]. Qed.

Lemma replace_at_middle (A : Type) (l r : list A) (x y : A) :
  replace_at (l ++ x :: r) (List.length l) y = l ++ y :: r.
Proof.
  induction l as [|z l IH]; [reflexivity|].
  cbn [app List.length replace_at]. now rewrite IH.
Qed.

(** The step of the thread in the middle of a pool *)
Lemma advance_middle (l r : list thread) (t : thread) (g : globals) :
  advance {| threads := l ++ t :: r; shared := g |} (List.length l)
  = {| threads := l ++ fst (step t g) :: r; shared := snd (step t g) |}.
Proof.
  unfold advance. cbn [threads shared].
  rewrite nth_error_middle. destruct (step t g) as [t' g'].
  now rewrite replace_at_middle.
Qed.

Lemma serial_from (cs : list call) :
  forall (l : list thread) (g : globals),
    shared (exec {| threads := l ++ map Waiting cs; shared := g |}
              (flat_map (fun i => [i; i])
                 (seq (List.length l) (List.length cs))))
    = run g cs.
Proof.
  induction cs as [|c cs IH]; intros l g; [reflexivity|].
  cbn [map List.length seq flat_map app]. unfold exec, run in *.
  cbn [fold_left]. rewrite advance_middle.
  pose proof (handler_steps g c) as H.
  destruct (step (Waiting c) g) as [t g1]. cbn [fst snd].
  rewrite advance_middle, H. cbn [fst snd].
  specialize (IH (l ++ [Done (fst (handle g c))]) (snd (handle g c))).
  rewrite length_app, Nat.add_1_r, <- app_assoc in IH. exact IH.
Qed.

(** Handlers that run one after the other are one interleaving among the
    others: the serial schedule leaves the globals of the run. *)
Lemma serial_is_run (g : globals) (cs : list call) :
  shared (exec (spawn g cs) (serial (List.length cs))) = run g cs.
Proof. exact (serial_from cs [] g). Qed.

(** ** The queue under every interleaving *)

(** What a step of a thread does to the queue and the counter. *)
Lemma step_queue (t : thread) (g : globals) :
  match t with
  | Recorded => commands (snd (step t g)) = []
  | Built cmd => commands (snd (step t g)) = commands g ++ [cmd]
  | Waiting (Delete index) =>
      commands (snd (step t g)) = commands (snd (delete_command g index))
  | Waiting Clear => commands (snd (step t g)) = []
  | _ => commands (snd (step t g)) = commands g
  end
  /\ cmd_counter (snd (step t g))
     = match t with
       | Built _ => S (cmd_counter g)
       | _ => cmd_counter g
       end.
Proof.
  destruct t as [[rq|rq|index|]| |cmd|o]; cbn [step].
  - destruct (build_record rq); split; reflexivity.
  - destruct (send_command_build (cmd_counter g) rq); split; reflexivity.
  - rewrite <- delete_command_route_globals.
    destruct (delete_command_route g index) as [o g'] eqn:E. cbn [snd].
    split; [reflexivity|].
    replace g' with (snd (delete_command_route g index)) by now rewrite E.
    rewrite delete_command_route_globals. unfold delete_command.
    now destruct (_ && _)%bool.
  - split; reflexivity.
  - unfold mt4_webhook_drain.
    destruct (map format_command (commands g)); split; reflexivity.
  - split; reflexivity.
  - split; reflexivity.
Qed.



Lemma nth_error_replace_at (A : Type) (l : list A) (x y : A) :
  forall i, nth_error l i = Some y -> nth_error (replace_at l i x) i = Some x.
Proof.
  induction l as [|z l IH]; intros [|i] H; try discriminate H;
    cbn [replace_at nth_error]; [reflexivity|now apply IH].
Qed.

(** A drain is one step: it answers with the renderings of the commands
    that are pending when it is taken, all of them, and leaves the queue
    empty. *)
Lemma drain_answer (s : process) (i : nat) :
  nth_error (threads s) i = Some Recorded ->
  nth_error (threads (advance s i)) i
  = Some (Done (Returns (Text (wire_body (shared s)) 200 text_plain)))
  /\ drained_at s i = commands (shared s)
  /\ commands (shared (advance s i)) = [].
Proof.
  intros H. unfold advance, drained_at. rewrite H.
  cbn [step]. unfold mt4_webhook_drain, wire_body.
  destruct (map format_command (commands (shared s)));
    cbn [threads shared commands];
    (split; [now apply nth_error_replace_at with Recorded|now split]).
Qed.


(** ** The ids under every interleaving *)

Lemma send_command_build_id (counter : nat) (rq : request) (cmd : command) :
  send_command_build counter rq = Some cmd -> id cmd = counter.
Proof.
  unfold send_command_build.
  destruct (_ || _ || _); [discriminate|].
  destruct (float_of_str _); [|discriminate].
  destruct (match strip (form_get (form rq) (lit "sl")) with
            | [] => _ | _ :: _ => _ end); [|discriminate].
  destruct (match strip (form_get (form rq) (lit "tp")) with
            | [] => _ | _ :: _ => _ end); [|discriminate].
  now intros [= <-].
Qed.

Lemma Forall_replace_at (A : Type) (P : A -> Prop) (l : list A) (x : A) :
  Forall P l -> P x -> forall i, Forall P (replace_at l i x).
Proof.
  intros Hl Hx. induction Hl as [|y l Hy Hl IH]; intros [|i];
    cbn [replace_at]; constructor; auto.
Qed.

(** No step breaks the bounds on the ids. *)
Lemma advance_keeps_bounds (s : process) (i : nat) :
  ids_bounded s -> ids_bounded (advance s i).
Proof.
  unfold ids_bounded, advance. intros [Hq Ht].
  destruct (nth_error (threads s) i) as [t|] eqn:E; [|now split].
  assert (Hin : match t with
                | Built cmd => id cmd <= cmd_counter (shared s)
                | _ => True
                end).
  { rewrite Forall_forall in Ht. apply (Ht t).
    now apply nth_error_In with i. }
  destruct (step_queue t (shared s)) as [Hc Hn].
  destruct (step t (shared s)) as [t' g'] eqn:Es.
  cbn [snd threads shared] in *.
  assert (Hmono : cmd_counter (shared s) <= cmd_counter g').
  { rewrite Hn. destruct t; lia. }
  split.
  - destruct t as [[rq|rq|index|]| |cmd|o]; rewrite Hc, Hn;
      try exact Hq; try constructor.
    + unfold delete_command.
      destruct (_ && _)%bool; cbn [snd commands]; [|exact Hq].
      rewrite Forall_forall in *. intros c0 Hc0. apply Hq.
      now apply (pop_incl _ (Z.to_nat index)).
    + apply Forall_app. split.
      * rewrite Forall_forall in *. intros c0 Hc0.
        specialize (Hq c0 Hc0). lia.
      * constructor; [lia|constructor].
  - apply Forall_replace_at.
    + rewrite Forall_forall in *. intros t0 Ht0. specialize (Ht t0 Ht0).
      destruct t0; try exact I. lia.
    + destruct t as [[rq|rq|index|]| |cmd|o]; cbn [step] in Es.
      * destruct (build_record rq); injection Es as <- <-; exact I.
      * destruct (send_command_build (cmd_counter (shared s)) rq)
          as [cmd|] eqn:Eb; injection Es as <- <-; [|exact I].
        apply send_command_build_id in Eb. lia.
      * destruct (delete_command_route (shared s) index).
        injection Es as <- <-. exact I.
      * injection Es as <- <-. exact I.
      * destruct (mt4_webhook_drain (shared s)).
        injection Es as <- <-. exact I.
      * injection Es as <- <-. exact I.
      * injection Es as <- <-. exact I.
Qed.

Lemma exec_keeps_bounds (schedule : list nat) :
  forall s, ids_bounded s -> ids_bounded (exec s schedule).
Proof.
  induction schedule as [|i rest IH]; intros s Hs; [exact Hs|].
  apply (IH (advance s i)). now apply advance_keeps_bounds.
Qed.

Lemma spawn_bounded (g : globals) (cs : list call) :
  Forall (fun c => id c < cmd_counter g) (commands g) ->
  ids_bounded (spawn g cs).
Proof.
  intros Hg. split; [exact Hg|]. cbn [spawn threads].
  apply Forall_forall. intros t Ht. apply in_map_iff in Ht.
  now destruct Ht as (c & <- & _).
Qed.

(** X3: when the calls are handled one after the other, at every moment
    of the run since the start of the process the ids of the pending
    commands are strictly increasing along the queue, so the order of the
    queue is the order of the ids, and each is below the counter.  When
    handlers overlap the order is lost, since an enqueue reads the counter
    before it takes the lock; but at every moment of every interleaving
    each pending id is still below the counter. *)
Theorem queue_ids_in_order (cs : list call) :
  (StronglySorted lt (map id (commands (run startup cs)))
   /\ Forall (fun c => id c < cmd_counter (run startup cs))
        (commands (run startup cs)))
  /\ forall schedule : list nat,
       Forall (fun c => id c
                        < cmd_counter (shared (exec (spawn startup cs)
                                                 schedule)))
         (commands (shared (exec (spawn startup cs) schedule))).
Proof.
  split.
  - apply (run_keeps_order cs (g := startup)). split; constructor.
  - intros schedule.
    apply (exec_keeps_bounds schedule (s := spawn startup cs)).
    apply spawn_bounded. constructor.
Qed.

(** ** A request that is turned away, under every interleaving *)

(** The handler of a rejected request is over after one step, which
    changes nothing, whatever the other threads have done. *)
Lemma rejected_step (g : globals) (rq : request) :
  rejected rq -> step (Waiting (Send rq)) g = (Done to_index, g).
Proof.
  intros Hr. cbn [step].
  pose proof (send_command_rejected g Hr) as H.
  rewrite send_command_steps in H.
  destruct (send_command_build (cmd_counter g) rq) as [cmd|];
    [|reflexivity].
  exfalso. injection H as H. apply (f_equal cmd_counter) in H.
  cbn [send_command_append cmd_counter] in H. lia.
Qed.
End Overlap.

(** C8: two enqueues that overlap are given the same id.  Both handlers
    read [cmd_counter] at line 198 before either takes [commands_lock] at
    line 206: the two commands are queued with the id 0, and the counter
    is 2.  With a third enqueue between the steps of the first, the ids
    along the queue are 0, 1, 0: the last enqueue that succeeds gets an id
    below the one before.  Handled one after the other the same requests
    get 0 and 1. *)
Theorem overlapping_enqueues_share_an_id :
  let a := submit [("symbol", "EURUSD"); ("direction", "BUY");
                   ("volume", "1")]%string in
  let b := submit [("symbol", "GBPUSD"); ("direction", "SELL");
                   ("volume", "2")]%string in
  let c := submit [("symbol", "USDJPY"); ("direction", "BUY");
                   ("volume", "3")]%string in
  let after (cs : list call) (schedule : list nat) :=
    shared (exec (B := cpython) (spawn startup cs) schedule) in
  map (fun cmd => (id cmd, symbol cmd))
    (commands (after [Send a; Send b] [0; 1; 0; 1]))
  = [(0, lit "EURUSD"); (0, lit "GBPUSD")]
  /\ cmd_counter (after [Send a; Send b] [0; 1; 0; 1]) = 2
  /\ map id (commands (after [Send a; Send b; Send c] [0; 1; 1; 2; 2; 0]))
     = [0; 1; 0]
  /\ map id (commands (after [Send a; Send b] (serial 2))) = [0; 1].
Proof. repeat split; vm_compute; reflexivity. Qed.

(** C10: the request with the volume [abc] is turned away and changes
    nothing, at whatever moment it is handled; but the ids given to the
    three requests that pass are 0, 0 and 2, not 0, 1, 2, when the first
    two overlap: both read [cmd_counter] at line 198 before either takes
    [commands_lock] at line 206.  The counter itself ends at 3. *)
Theorem overlapping_enqueues_break_the_sequence :
  let ok (sym : string) :=
    submit [("symbol", sym); ("direction", "BUY"); ("volume", "1")]%string in
  let bad := submit [("symbol", "EURUSD"); ("direction", "BUY");
                     ("volume", "abc")]%string in
  let s := spawn startup
             [Send (ok "EURUSD"%string); Send bad;
              Send (ok "GBPUSD"%string); Send (ok "USDJPY"%string)] in
  let during := exec (B := cpython) s [0; 2] in
  let after := exec (B := cpython) during [1; 0; 2; 3; 3] in
  shared (advance (B := cpython) during 1) = shared during
  /\ nth_error (threads after) 1 = Some (Done to_index)
  /\ map id (commands (shared after)) = [0; 0; 2]
  /\ cmd_counter (shared after) = 3
  /\ map id (commands (shared (exec (B := cpython) s (serial 4))))
     = [0; 1; 2].
Proof. repeat split; vm_compute; reflexivity. Qed.
